(** * WebDAVFS: the request-translation layer of the Nextcloud file system provider

    A shallow embedding of [src/scripts/webdav_fs.js].  JavaScript objects
    used as dictionaries are finite maps ([gmap string _]), strings are
    [string], array buffers are [list Byte.byte], and the asynchronous
    handlers are written in a state-and-exception monad over the fields of
    the [WebDAVFS] instance and the collaborators it talks to. *)

From Stdlib Require Import String Ascii NArith ZArith Lia.
From Stdlib.Strings Require Import Byte.
From stdpp Require Import gmap strings list fin_maps sorting pretty.

Local Open Scope string_scope.

(** ** JavaScript values *)

Module JS.

(** The values that flow through the handlers.  Numbers are the
    non-negative integers the host sends (offsets, lengths, sizes,
    request ids); [VDate s] stands for [new Date(s)]. *)
Inductive Value :=
| VUndefined
| VNull
| VBool (b : bool)
| VNumber (n : N)
| VString (s : string)
| VBuffer (bytes : list Byte.byte)
| VDate (s : string)
| VInherited (key : string).   (* the value of [Object.prototype[key]] *)

(** [ToBoolean]: what [if (v)] and [!v] look at. *)
Definition truthy (v : Value) : bool :=
  match v with
  | VUndefined | VNull => false
  | VBool b => b
  | VNumber n => negb (n =? 0)%N
  | VString s => negb (String.eqb s "")
  | VBuffer _ | VDate _ | VInherited _ => true
  end.

(** A plain object: its own enumerable properties. *)
Abbreviation Obj := (gmap string Value).

(** What every plain object inherits from [Object.prototype]: functions,
    and the prototype itself under [__proto__]. *)
Definition inherited : list string :=
  ["constructor"; "hasOwnProperty"; "isPrototypeOf"; "propertyIsEnumerable";
   "toLocaleString"; "toString"; "valueOf"; "__defineGetter__"; "__defineSetter__";
   "__lookupGetter__"; "__lookupSetter__"; "__proto__"].

(** [o[key]]: an own property, else an inherited one, else [undefined]. *)
Definition prop (o : Obj) (key : string) : Value :=
  match o !! key with
  | Some v => v
  | None => if bool_decide (key ∈ inherited) then VInherited key else VUndefined
  end.

(** [Object.keys(o)]. *)
Definition keys (o : Obj) : list string := (map_to_list o).*1.

(** [String(index)] for a non-negative integer: its decimal digits
    (exact for every integer below 10^21, where JavaScript switches to
    exponent notation). *)
Definition String_ (index : N) : string := pretty index.

(** [`${x}`] for a possibly undefined string. *)
Definition template (x : option string) : string := default "undefined" x.

(** [s.slice(start)]: a negative [start] counts from the end. *)
Definition slice (s : string) (start : Z) : string :=
  let len := Z.of_nat (String.length s) in
  let from := if (start <? 0)%Z then Z.max (len + start) 0 else Z.min start len in
  String.substring (Z.to_nat from) (Z.to_nat (len - from)) s.

(** [buffer.slice(0, length)] for a non-negative [length]. *)
Definition buffer_slice0 (buffer : list Byte.byte) (length : N) : list Byte.byte :=
  take (N.to_nat length) buffer.

(** [data.byteLength]. *)
Definition byteLength (data : list Byte.byte) : N := N.of_nat (List.length data).

End JS.
Import JS.

(** ** The pure helpers at the end of the source file *)

(** [createFileSystemID(url, username)]. *)
Definition createFileSystemID (url username : string) : string :=
  "webdavfs://" ++ username ++ "/" ++ url.

(** [paddedIndex(index)]. *)
Definition paddedIndex (index : N) : string :=
  let padding := "000000000000000" in
  let length := String.length padding in
  slice (padding ++ String_ index) (- Z.of_nat length).

(** The name of the chunk object written by [onWriteFileRequested]:
    [`${paddedIndex(offset)}-${paddedIndex(end)}`].  The end is the exact
    sum; the source adds two doubles, which is that sum as long as it does
    not pass 2^53. *)
Definition chunkName (offset : N) (data : list Byte.byte) : string :=
  let end_ := (offset + byteLength data)%N in
  paddedIndex offset ++ "-" ++ paddedIndex end_.

(** [uploadPath] of [onWriteFileRequested]. *)
Definition uploadPath (uuid : option string) (offset : N) (data : list Byte.byte) : string :=
  "/" ++ template uuid ++ "/" ++ chunkName offset data.

(** A remote "stat" record as the WebDAV client returns it. *)
Module Stat.
Record t := {
  basename : string;
  lastmod : string;
  size : N;
  type : string;
  mime : option string;
}.
End Stat.

(** [fromStat(stat)].  An absent [mime] leaves [mimeType] present with the
    value [undefined]. *)
Definition fromStat (stat : Stat.t) : Obj :=
  let '(Stat.Build_t basename lastmod size type mime) := stat in
  {[ "isDirectory" := VBool (String.eqb type "directory");
     "name" := VString basename;
     "size" := VNumber size;
     "modificationTime" := VDate lastmod;
     "mimeType" := from_option VString VUndefined mime ]}.

(** [canonicalizedMetadata(metadata, options)]: copy, then delete every key
    of [metadata] whose option flag is falsy. *)
Definition canonicalizedMetadata (metadata options : Obj) : Obj :=
  let _metadata := metadata in
  foldl (fun _metadata key =>
           if negb (truthy (prop options key)) then delete key _metadata else _metadata)
        _metadata (keys metadata).


(** ** Exceptions and results *)

Inductive Exn :=
| ReferenceError (name : string)   (* reading an identifier that no scope declares *)
| TypeError (message : string)     (* a method call or destructuring on [undefined] *)
| Error (message : string).        (* [new Error(message)], also what a failed request rejects with *)

Definition message (e : Exn) : string :=
  match e with
  | ReferenceError name => name ++ " is not defined"
  | TypeError m | Error m => m
  end.

Inductive Result (A : Type) :=
| Ok (a : A)
| Throw (e : Exn).
Arguments Ok {A} a.
Arguments Throw {A} e.

(** The error reason [#assignEventHandlers] hands to the host's
    [errorCallback]. *)
Definition reason (e : Exn) : string :=
  if String.eqb (message e) "Request failed with status code 404" then "NOT_FOUND" else "FAILED".

(** ** The metadata cache *)

Module MetadataCache.

(** Modelled from the spec: the [MetadataCache] class, whose source file
    is not among the sources.  The spec (sections 3 and 4.2) gives it two
    independent sub-caches per mount, a directory-listing cache (path to
    the ordered sequence of child metadata) and a single-entry cache
    (path to metadata). *)
Record t := {
  listings : gmap string (list Obj);
  entries : gmap string Obj;
}.

(** Modelled from the spec: [new MetadataCache()], "a fresh, empty
    Metadata Cache". *)
Definition empty : t := {| listings := ∅; entries := ∅ |}.

(** Modelled from the spec: [put(path, entries)] "stores the full ordered
    child list for path; marks listing-present". *)
Definition put (path : string) (metadataList : list Obj) (c : t) : t :=
  {| listings := <[path := metadataList]> (listings c); entries := entries c |}.

(** Modelled from the spec: the "direct single-entry cache populated by
    stat calls". *)
Definition putEntry (path : string) (metadata : Obj) (c : t) : t :=
  {| listings := listings c; entries := <[path := metadata]> (entries c) |}.

(** The path of the child called [name] in the listing of
    [directoryPath]. *)
Definition childPath (directoryPath name : string) : string :=
  if String.eqb directoryPath "/" then "/" ++ name else directoryPath ++ "/" ++ name.

Definition isChild (path directoryPath : string) (metadata : Obj) : bool :=
  match prop metadata "name" with
  | VString name => String.eqb (childPath directoryPath name) path
  | _ => false
  end.

(** Modelled from the spec: "whether path was returned as a child within
    some cached listing". *)
Definition listed (c : t) (path : string) : option Obj :=
  head (mjoin ((fun '(directoryPath, metadataList) =>
                  filter (fun metadata => isChild path directoryPath metadata = true) metadataList)
               <$> map_to_list (listings c))).

(** What [get] answers; the source reads the two presence flags as
    [directoryExists] (listing-present) and [fileExists] (entry-present). *)
Record Lookup := {
  directoryExists : bool;
  fileExists : bool;
  metadata : option Obj;
}.

(** Modelled from the spec: [get(path)] "returns cached metadata and two
    presence flags": it "first checks whether path was returned as a child
    within some cached listing, then checks a direct single-entry cache". *)
Definition get (path : string) (c : t) : Lookup :=
  let child := listed c path in
  let entry := entries c !! path in
  {| directoryExists := bool_decide (is_Some child);
     fileExists := bool_decide (is_Some entry);
     metadata := match entry with Some m => Some m | None => child end |}.

(** Modelled from the spec: [remove(path)] "evicts both the listing cache
    and single-entry cache for path" and "evicts only that path, not its
    parent listing". *)
Definition remove (path : string) (c : t) : t :=
  {| listings := delete path (listings c); entries := delete path (entries c) |}.

(** Whether either sub-cache holds an entry keyed by [path]. *)
Definition holds (c : t) (path : string) : bool :=
  bool_decide (is_Some (listings c !! path)) || bool_decide (is_Some (entries c !! path)).

End MetadataCache.

(** ** The collaborators *)

Module WebDAV.
(** What [WebDAV.createClient(url, { username, password })] returns. *)
Record Client := {
  url : string;
  username : string;
  password : string;
}.
Definition createClient (url username password : string) : Client :=
  {| url := url; username := username; password := password |}.
End WebDAV.

(** The mount parameters [{ name, url, username, password }]; the same
    object is what [storeMountedCredential] persists. *)
Record MountOptions := {
  name : string;
  url : string;
  username : string;
  password : string;
}.

(** Every call the provider makes on the host's [browser.fileSystemProvider]
    and on a WebDAV client, with the arguments it passes. *)
Inductive Call :=
| FileSystemProviderGet (fileSystemId : string)
| FileSystemProviderMount (fileSystemId displayName : string) (writable : bool)
| FileSystemProviderUnmount (fileSystemId : string)
| GetDirectoryContents (client : WebDAV.Client) (path : string)
| StatCall (client : WebDAV.Client) (path : string)
| CreateDirectory (client : WebDAV.Client) (path : string)
| DeleteFile (client : WebDAV.Client) (path : string)
| PutFileContents (client : WebDAV.Client) (path data : Value)
| CopyFile (client : WebDAV.Client) (source target : string)
| MoveFile (client : WebDAV.Client) (source target : string)
| GetFileContents (client : WebDAV.Client) (path : string).

(** The host runtime, the WebDAV client library with the server behind it
    and the uuid generator are outside the program: an interface over the
    state [E] of that outside world.  Each method answers a call and moves
    the outside world on. *)
Class Collaborators (E : Type) := {
  uuidv1 : E → string * E;
  fileSystemProvider_get : string → E → bool;
  fileSystemProvider_mount : string → string → bool → E → Result unit * E;
  fileSystemProvider_unmount : string → E → Result unit * E;
  getDirectoryContents : WebDAV.Client → string → E → Result (list Stat.t) * E;
  stat : WebDAV.Client → string → E → Result Stat.t * E;
  createDirectory : WebDAV.Client → string → E → Result unit * E;
  deleteFile : WebDAV.Client → string → E → Result unit * E;
  putFileContents : WebDAV.Client → Value → Value → E → Result unit * E;
  copyFile : WebDAV.Client → string → string → E → Result unit * E;
  moveFile : WebDAV.Client → string → string → E → Result unit * E;
  getFileContents : WebDAV.Client → string → E → Result (list Byte.byte) * E;
}.

(** ** A JavaScript object with string keys, in property order

    [mountedCredentials] is enumerated with [Object.values], so the order of
    its properties matters: assigning to a new key appends it, assigning to
    an existing key keeps its place.  (The keys are file system ids, never
    array indices, so insertion order is the enumeration order.) *)
Module Props.
Section WithValues.
Context {V : Type}.

Fixpoint assign (key : string) (v : V) (o : list (string * V)) : list (string * V) :=
  match o with
  | [] => [(key, v)]
  | (k, x) :: o' => if String.eqb k key then (k, v) :: o' else (k, x) :: assign key v o'
  end.

Definition delete (key : string) (o : list (string * V)) : list (string * V) :=
  filter (fun kv => kv.1 ≠ key) o.

Definition values (o : list (string * V)) : list V := o.*2.
End WithValues.
End Props.

(** ** The state *)

(** A value of [#openedFilesMap]: the [{ filePath, mode, uuid }] that
    [onOpenFileRequested] stores, or the [{}] that [resumeMounts] stores. *)
Inductive OpenedFile :=
| Handle (filePath mode uuid : string)
| EmptyObject.

Definition filePathOf (o : OpenedFile) : option string :=
  match o with Handle filePath _ _ => Some filePath | EmptyObject => None end.
Definition uuidOf (o : OpenedFile) : option string :=
  match o with Handle _ _ uuid => Some uuid | EmptyObject => None end.

(** The private fields of the [WebDAVFS] instance, the extension's
    [browser.storage.local] (its [mountedCredentials] property, [None]
    while it was never set), the outside world and the calls made so far. *)
Record World (E : Type) := {
  webDAVClientMap : gmap string WebDAV.Client;
  openedFilesMap : gmap string OpenedFile;
  metadataCacheMap : gmap string MetadataCache.t;
  mountedCredentials : option (list (string * MountOptions));
  env : E;
  calls : list Call;
}.
Arguments webDAVClientMap {E} _.
Arguments openedFilesMap {E} _.
Arguments metadataCacheMap {E} _.
Arguments mountedCredentials {E} _.
Arguments env {E} _.
Arguments calls {E} _.
Arguments Build_World {E} _ _ _ _ _ _.

Section Setters.
Context {E : Type}.
Implicit Type w : World E.

Definition with_webDAVClientMap (f : gmap string WebDAV.Client → gmap string WebDAV.Client) w :=
  Build_World (f (webDAVClientMap w)) (openedFilesMap w) (metadataCacheMap w)
              (mountedCredentials w) (env w) (calls w).
Definition with_openedFilesMap (f : gmap string OpenedFile → gmap string OpenedFile) w :=
  Build_World (webDAVClientMap w) (f (openedFilesMap w)) (metadataCacheMap w)
              (mountedCredentials w) (env w) (calls w).
Definition with_metadataCacheMap (f : gmap string MetadataCache.t → gmap string MetadataCache.t) w :=
  Build_World (webDAVClientMap w) (openedFilesMap w) (f (metadataCacheMap w))
              (mountedCredentials w) (env w) (calls w).
Definition with_mountedCredentials (v : option (list (string * MountOptions))) w :=
  Build_World (webDAVClientMap w) (openedFilesMap w) (metadataCacheMap w)
              v (env w) (calls w).
Definition with_call (c : Call) (e : E) w :=
  Build_World (webDAVClientMap w) (openedFilesMap w) (metadataCacheMap w)
              (mountedCredentials w) e (calls w ++ [c]).
Definition with_env (e : E) w :=
  Build_World (webDAVClientMap w) (openedFilesMap w) (metadataCacheMap w)
              (mountedCredentials w) e (calls w).
End Setters.

(** ** The monad of the async handlers

    An [async] function either returns or throws, and what it did to the
    state before throwing stays done. *)
Definition M (E A : Type) : Type := World E → Result A * World E.

Section Monad.
Context {E : Type}.

Definition ret {A} (a : A) : M E A := fun w => (Ok a, w).

Definition bind {A B} (m : M E A) (k : A → M E B) : M E B :=
  fun w => match m w with
           | (Ok a, w') => k a w'
           | (Throw e, w') => (Throw e, w')
           end.

Definition throw {A} (e : Exn) : M E A := fun w => (Throw e, w).

Definition gets {A} (f : World E → A) : M E A := fun w => (Ok (f w), w).

Definition modify (f : World E → World E) : M E unit := fun w => (Ok tt, f w).

(** Reading an identifier that is declared nowhere. *)
Definition unbound {A} (identifier : string) : M E A := throw (ReferenceError identifier).

(** [receiver.method(...)] and [const {...} = receiver] need a receiver. *)
Definition defined {A} (receiver : option A) : M E A :=
  match receiver with
  | Some a => ret a
  | None => throw (TypeError "Cannot read properties of undefined")
  end.

(** [await] of a call on a collaborator: the call is made, the outside
    world answers. *)
Definition await {A} (c : Call) (answer : E → Result A * E) : M E A :=
  fun w => let '(r, e) := answer (env w) in (r, with_call c e w).

(** The same call without [await]: the request goes out, its outcome is
    never looked at. *)
Definition unawaited {A} (c : Call) (answer : E → Result A * E) : M E unit :=
  fun w => let '(_, e) := answer (env w) in (Ok tt, with_call c e w).

(** [for (const x of xs) body]. *)
Fixpoint for_of {A} (xs : list A) (body : A → M E unit) : M E unit :=
  match xs with
  | [] => ret tt
  | x :: xs' => bind (body x) (fun _ => for_of xs' body)
  end.
End Monad.

Declare Scope js_scope.
Delimit Scope js_scope with js.
Notation "x <- m ;; k" := (bind m (fun x => k))
  (at level 100, m at next level, right associativity) : js_scope.
Notation "m ;; k" := (bind m (fun _ => k))
  (at level 100, right associativity) : js_scope.

(** ** Request options

    The handlers below take the properties they destructure from [options]
    as their parameters.  The two handlers that also index [options] by
    metadata key take the whole record; [rest] holds the properties the
    handler does not name ([isDirectory], [name], [size],
    [modificationTime], [mimeType], ... as the host sets them). *)
Module ReadDirectoryRequestedOptions.
Record t := {
  fileSystemId : string;
  directoryPath : string;
  rest : Obj;
}.
Definition as_object (options : t) : Obj :=
  <["fileSystemId" := VString (fileSystemId options)]>
    (<["directoryPath" := VString (directoryPath options)]> (rest options)).
End ReadDirectoryRequestedOptions.

Module GetMetadataRequestedOptions.
Record t := {
  fileSystemId : string;
  entryPath : string;
  thumbnail : bool;
  rest : Obj;
}.
Definition as_object (options : t) : Obj :=
  <["fileSystemId" := VString (fileSystemId options)]>
    (<["entryPath" := VString (entryPath options)]>
       (<["thumbnail" := VBool (thumbnail options)]> (rest options))).
End GetMetadataRequestedOptions.

(** ** The provider *)

Section WebDAVFS.
Context {E : Type} `{Collaborators E}.
Local Open Scope js_scope.

(** [uuidv1()]. *)
Definition new_uuid : M E string :=
  fun w => let '(uuid, e) := uuidv1 (env w) in (Ok uuid, with_env e w).

(** [storeMountedCredential(fileSystemId, credential)]. *)
Definition storeMountedCredential (fileSystemId : string) (credential : MountOptions)
  : M E unit :=
  mountedCredentials <- gets mountedCredentials;;
  let mountedCredentials := default [] mountedCredentials in
  let mountedCredentials := Props.assign fileSystemId credential mountedCredentials in
  modify (with_mountedCredentials (Some mountedCredentials)).

(** [removeMountedCredential(fileSystemId)]. *)
Definition removeMountedCredential (fileSystemId : string) : M E unit :=
  mountedCredentials <- gets mountedCredentials;;
  match mountedCredentials with
  | None => ret tt
  | Some mountedCredentials =>
      modify (with_mountedCredentials (Some (Props.delete fileSystemId mountedCredentials)))
  end.

(** [getMountedCredentials()]. *)
Definition getMountedCredentials : M E (list MountOptions) :=
  mountedCredentials <- gets mountedCredentials;;
  ret (Props.values (default [] mountedCredentials)).

(** [isMounted(url, username)]. *)
Definition isMounted (url username : string) : M E bool :=
  let fileSystemId := createFileSystemID url username in
  fun w => (Ok (fileSystemProvider_get fileSystemId (env w)),
            with_call (FileSystemProviderGet fileSystemId) (env w) w).

(** [mount(options)]. *)
Definition mount (options : MountOptions) : M E unit :=
  let '(Build_MountOptions name url username password) := options in
  mounted <- isMounted url username;;
  if mounted : bool then ret tt else
  let client := WebDAV.createClient url username password in
  await (GetDirectoryContents client "/") (getDirectoryContents client "/");;
  let fileSystemId := createFileSystemID url username in
  await (FileSystemProviderMount fileSystemId name true)
        (fileSystemProvider_mount fileSystemId name true);;
  modify (with_webDAVClientMap <[fileSystemId := client]>);;
  modify (with_metadataCacheMap <[fileSystemId := MetadataCache.empty]>);;
  storeMountedCredential fileSystemId options.

(** The body of the loop of [resumeMounts], for one persisted record. *)
Definition resumeMount (credential : MountOptions) : M E unit :=
  let '(Build_MountOptions name url username password) := credential in
  let client := WebDAV.createClient url username password in
  await (GetDirectoryContents client "/") (getDirectoryContents client "/");;
  let fileSystemId := createFileSystemID url username in
  await (FileSystemProviderMount fileSystemId name true)
        (fileSystemProvider_mount fileSystemId name true);;
  modify (with_webDAVClientMap <[fileSystemId := client]>);;
  modify (with_openedFilesMap <[fileSystemId := EmptyObject]>);;
  modify (with_metadataCacheMap <[fileSystemId := MetadataCache.empty]>).

(** [resumeMounts()]. *)
Definition resumeMounts : M E unit :=
  credentials <- getMountedCredentials;;
  for_of credentials resumeMount.

(** [#resume], which the constructor runs. *)
Definition resume : M E unit :=
  credentials <- getMountedCredentials;;
  for_of credentials (fun '(Build_MountOptions _ url username password) =>
    let client := WebDAV.createClient url username password in
    let fileSystemId := createFileSystemID url username in
    modify (with_webDAVClientMap <[fileSystemId := client]>);;
    modify (with_metadataCacheMap <[fileSystemId := MetadataCache.empty]>)).

(** [onUnmountRequested(options)]. *)
Definition onUnmountRequested (fileSystemId : string) : M E unit :=
  await (FileSystemProviderUnmount fileSystemId) (fileSystemProvider_unmount fileSystemId);;
  modify (with_webDAVClientMap (delete fileSystemId));;
  modify (with_openedFilesMap (delete fileSystemId));;
  modify (with_metadataCacheMap (delete fileSystemId));;
  removeMountedCredential fileSystemId.

(** [onReadDirectoryRequested(options)]. *)
Definition onReadDirectoryRequested (options : ReadDirectoryRequestedOptions.t)
  : M E (list Obj * bool) :=
  let fileSystemId := ReadDirectoryRequestedOptions.fileSystemId options in
  let directoryPath := ReadDirectoryRequestedOptions.directoryPath options in
  client <- gets (fun w => webDAVClientMap w !! fileSystemId);;
  client <- defined client;;
  stats <- await (GetDirectoryContents client directoryPath)
                 (getDirectoryContents client directoryPath);;
  let metadataList := fromStat <$> stats in
  metadataCache <- gets (fun w => metadataCacheMap w !! fileSystemId);;
  metadataCache <- defined metadataCache;;
  modify (with_metadataCacheMap
            <[fileSystemId := MetadataCache.put directoryPath metadataList metadataCache]>);;
  let hasMore := false in
  ret ((fun metadata =>
          canonicalizedMetadata metadata (ReadDirectoryRequestedOptions.as_object options))
         <$> metadataList, hasMore).

(** [onGetMetadataRequested(options)]. *)
Definition onGetMetadataRequested (options : GetMetadataRequestedOptions.t)
  : M E (list Obj) :=
  let fileSystemId := GetMetadataRequestedOptions.fileSystemId options in
  let entryPath := GetMetadataRequestedOptions.entryPath options in
  let thumbnail := GetMetadataRequestedOptions.thumbnail options in
  if thumbnail then throw (Error "Thumbnail not supported") else
  client <- gets (fun w => webDAVClientMap w !! fileSystemId);;
  metadataCache <- gets (fun w => metadataCacheMap w !! fileSystemId);;
  metadataCache <- defined metadataCache;;
  let cache := MetadataCache.get entryPath metadataCache in
  if MetadataCache.directoryExists cache && MetadataCache.fileExists cache then
    metadata <- defined (MetadataCache.metadata cache);;
    ret [canonicalizedMetadata metadata (GetMetadataRequestedOptions.as_object options)]
  else
    client <- defined client;;
    stat <- await (StatCall client entryPath) (stat client entryPath);;
    ret [canonicalizedMetadata (fromStat stat) (GetMetadataRequestedOptions.as_object options)].

(** [onOpenFileRequested(options)].  The handler destructures only
    [requestId], [filePath] and [mode]: the [fileSystemId] its WRITE
    branch reads is bound nowhere. *)
Definition onOpenFileRequested (requestId : N) (filePath mode : string) : M E unit :=
  uuid <- new_uuid;;
  (if String.eqb mode "WRITE" then
     fileSystemId <- unbound "fileSystemId";;
     client <- gets (fun w => webDAVClientMap w !! fileSystemId);;
     client <- defined client;;
     await (CreateDirectory client ("/" ++ uuid)) (createDirectory client ("/" ++ uuid))
   else ret tt);;
  modify (with_openedFilesMap <[String_ requestId := Handle filePath mode uuid]>).

(** [onCloseFileRequested(options)]. *)
Definition onCloseFileRequested (fileSystemId : string) (openRequestId : N) : M E unit :=
  opened <- gets (fun w => openedFilesMap w !! String_ openRequestId);;
  opened <- defined opened;;
  match opened with
  | Handle filePath mode uuid =>
      if String.eqb mode "WRITE" then
        client <- gets (fun w => webDAVClientMap w !! fileSystemId);;
        client <- defined client;;
        await (MoveFile client ("/" ++ uuid ++ "/.file") filePath)
              (moveFile client ("/" ++ uuid ++ "/.file") filePath)
      else ret tt
  | EmptyObject => ret tt
  end;;
  modify (with_openedFilesMap (delete (String_ openRequestId))).

(** [onCreateDirectoryRequested(options)].  Its log line reads
    [recursive], which the handler does not destructure. *)
Definition onCreateDirectoryRequested (fileSystemId directoryPath : string) : M E unit :=
  recursive <- unbound (A := Value) "recursive";;
  client <- gets (fun w => webDAVClientMap w !! fileSystemId);;
  client <- defined client;;
  await (CreateDirectory client directoryPath) (createDirectory client directoryPath).

(** [onDeleteEntryRequested(options)]: [deleteFile] is not awaited. *)
Definition onDeleteEntryRequested (fileSystemId entryPath : string) : M E unit :=
  client <- gets (fun w => webDAVClientMap w !! fileSystemId);;
  client <- defined client;;
  unawaited (DeleteFile client entryPath) (deleteFile client entryPath);;
  metadataCache <- gets (fun w => metadataCacheMap w !! fileSystemId);;
  metadataCache <- defined metadataCache;;
  modify (with_metadataCacheMap
            <[fileSystemId := MetadataCache.remove entryPath metadataCache]>).

(** [onCreateFileRequested(options)]. *)
Definition onCreateFileRequested (fileSystemId filePath : string) : M E unit :=
  client <- gets (fun w => webDAVClientMap w !! fileSystemId);;
  client <- defined client;;
  await (PutFileContents client (VString filePath) (VBuffer []))
        (putFileContents client (VString filePath) (VBuffer []));;
  metadataCache <- gets (fun w => metadataCacheMap w !! fileSystemId);;
  metadataCache <- defined metadataCache;;
  modify (with_metadataCacheMap
            <[fileSystemId := MetadataCache.remove filePath metadataCache]>).

(** [onCopyEntryRequested(options)]. *)
Definition onCopyEntryRequested (fileSystemId sourcePath targetPath : string) : M E unit :=
  client <- gets (fun w => webDAVClientMap w !! fileSystemId);;
  client <- defined client;;
  await (CopyFile client sourcePath targetPath) (copyFile client sourcePath targetPath);;
  metadataCache <- gets (fun w => metadataCacheMap w !! fileSystemId);;
  metadataCache <- defined metadataCache;;
  modify (with_metadataCacheMap
            <[fileSystemId := MetadataCache.remove targetPath
                                (MetadataCache.remove sourcePath metadataCache)]>).

(** [onMoveEntryRequested(options)]. *)
Definition onMoveEntryRequested (fileSystemId sourcePath targetPath : string) : M E unit :=
  client <- gets (fun w => webDAVClientMap w !! fileSystemId);;
  client <- defined client;;
  await (MoveFile client sourcePath targetPath) (moveFile client sourcePath targetPath);;
  metadataCache <- gets (fun w => metadataCacheMap w !! fileSystemId);;
  metadataCache <- defined metadataCache;;
  modify (with_metadataCacheMap
            <[fileSystemId := MetadataCache.remove targetPath
                                (MetadataCache.remove sourcePath metadataCache)]>).

(** [onTruncateRequested(options)].  [putFileContents] is called with one
    argument, the sliced buffer. *)
Definition onTruncateRequested (fileSystemId filePath : string) (length : N) : M E unit :=
  client <- gets (fun w => webDAVClientMap w !! fileSystemId);;
  client <- defined client;;
  buffer <- await (GetFileContents client filePath) (getFileContents client filePath);;
  await (PutFileContents client (VBuffer (buffer_slice0 buffer length)) VUndefined)
        (putFileContents client (VBuffer (buffer_slice0 buffer length)) VUndefined).

(** [onWriteFileRequested(options)]. *)
Definition onWriteFileRequested (fileSystemId : string) (openRequestId offset : N)
    (data : list Byte.byte) : M E unit :=
  opened <- gets (fun w => openedFilesMap w !! String_ openRequestId);;
  opened <- defined opened;;
  let filePath := filePathOf opened in
  let uuid := uuidOf opened in
  client <- gets (fun w => webDAVClientMap w !! fileSystemId);;
  let uploadPath := uploadPath uuid offset data in
  client <- defined client;;
  await (PutFileContents client (VString uploadPath) (VBuffer data))
        (putFileContents client (VString uploadPath) (VBuffer data)).

(** [onAbortRequested(options)]. *)
Definition onAbortRequested (fileSystemId : string) (operationRequestId : N) : M E unit :=
  ret tt.

End WebDAVFS.

(** ** A reference outside world

    Modelled from the spec: the collaborators that are outside the program
    (section 1), as one concrete instance of [Collaborators] to run the
    provider against: a WebDAV server of the Nextcloud dialect with
    path-addressed stat, list, get, put, mkcol, delete, move and copy
    (section 4.3) that fails with a status code, the host's table of mounted
    file systems, and a uuid generator. *)
Module Cloud.

Inductive Resource :=
| Collection
| File (content : list Byte.byte).

Record t := {
  origin : string;                     (* the url the server answers at *)
  accounts : gmap string string;       (* user name to password *)
  resources : gmap string Resource;    (* path to resource *)
  mounted : gset string;               (* the host's mounted file system ids *)
  issued : N;                          (* uuids handed out so far *)
}.

Definition with_resources (f : gmap string Resource → gmap string Resource) (e : t) : t :=
  {| origin := origin e; accounts := accounts e; resources := f (resources e);
     mounted := mounted e; issued := issued e |}.
Definition with_mounted (f : gset string → gset string) (e : t) : t :=
  {| origin := origin e; accounts := accounts e; resources := resources e;
     mounted := f (mounted e); issued := issued e |}.

Definition status (code : string) : Exn := Error ("Request failed with status code " ++ code).

(** The server answers a client that addresses it and authenticates. *)
Definition authorised (client : WebDAV.Client) (e : t) : bool :=
  String.eqb (WebDAV.url client) (origin e)
  && bool_decide (accounts e !! WebDAV.username client = Some (WebDAV.password client)).

Definition request {A} (client : WebDAV.Client) (answer : t → Result A * t) (e : t)
  : Result A * t :=
  if String.eqb (WebDAV.url client) (origin e) then
    if authorised client e then answer e else (Throw (status "401"), e)
  else (Throw (Error "Network Error"), e).

(** [strip_prefix p s] is [Some rest] when [s = p ++ rest]. *)
Fixpoint strip_prefix (p s : string) : option string :=
  match p, s with
  | "", _ => Some s
  | String a p', String b s' => if Ascii.eqb a b then strip_prefix p' s' else None
  | String _ _, "" => None
  end.

(** [strip_suffix q s] is [Some front] when [s = front ++ q]. *)
Fixpoint strip_suffix (q s : string) : option string :=
  if String.eqb s q then Some ""
  else match s with
       | "" => None
       | String a s' => String a <$> strip_suffix q s'
       end.

(** The parts of a path before and after its last slash. *)
Fixpoint split_last (s : string) : option (string * string) :=
  match s with
  | "" => None
  | String a s' =>
      match split_last s' with
      | Some (front, back) => Some (String a front, back)
      | None => if Ascii.eqb a "/" then Some ("", s') else None
      end
  end.
Definition base (path : string) : string :=
  match split_last path with Some (_, back) => back | None => path end.
Definition parent (path : string) : string :=
  match split_last path with
  | Some ("", _) => "/"
  | Some (front, _) => front
  | None => ""
  end.

Definition stat_of (path : string) (r : Resource) : Stat.t :=
  match r with
  | Collection =>
      {| Stat.basename := base path; Stat.lastmod := "Thu, 01 Jan 1970 00:00:00 GMT";
         Stat.size := 0; Stat.type := "directory"; Stat.mime := None |}
  | File content =>
      {| Stat.basename := base path; Stat.lastmod := "Thu, 01 Jan 1970 00:00:00 GMT";
         Stat.size := byteLength content; Stat.type := "file";
         Stat.mime := Some "application/octet-stream" |}
  end.

Definition below (directory path : string) : bool :=
  bool_decide (is_Some (strip_prefix (directory ++ "/") path)).

(** Modelled from the spec: the chunk objects of a staging container, in
    the string order of their names ("a simple string sort yields
    byte-order", section 4.4). *)
Definition chunk_le (a b : string * list Byte.byte) : Prop := String.le a.1 b.1.
#[global] Instance chunk_le_dec : RelDecision chunk_le.
Proof. intros a b. unfold chunk_le. apply _. Defined.

Definition chunk_of (container : string) (pr : string * Resource)
  : option (string * list Byte.byte) :=
  match pr.2 with
  | File content => (fun name => (name, content)) <$> strip_prefix (container ++ "/") pr.1
  | Collection => None
  end.

Definition chunks (container : string) (rs : gmap string Resource)
  : list (string * list Byte.byte) :=
  merge_sort chunk_le (omap (chunk_of container) (map_to_list rs)).

(** Modelled from the spec: the chunked-upload convention of the server
    dialect, which lives on the remote server (sections 4.4 and 6): "a
    final MOVE triggers server-side assembly into the real target path".  A
    MOVE of [<container>/.file] joins the chunk objects of the staging
    container, in the string order of their names, into the target, and
    consumes the container. *)
Definition assemble (container target : string) (rs : gmap string Resource)
  : gmap string Resource :=
  let content := mjoin (chunks container rs).*2 in
  <[target := File content]>
    (filter (fun pr => pr.1 ≠ container ∧ below container pr.1 = false) rs).

Definition do_getDirectoryContents (path : string) (e : t) : Result (list Stat.t) * t :=
  match resources e !! path with
  | Some Collection =>
      (Ok ((fun pr => stat_of pr.1 pr.2)
             <$> filter (fun pr => parent pr.1 = path ∧ pr.1 ≠ path) (map_to_list (resources e))),
       e)
  | _ => (Throw (status "404"), e)
  end.

Definition do_stat (path : string) (e : t) : Result Stat.t * t :=
  match resources e !! path with
  | Some r => (Ok (stat_of path r), e)
  | None => (Throw (status "404"), e)
  end.

Definition do_createDirectory (path : string) (e : t) : Result unit * t :=
  match resources e !! path with
  | Some _ => (Throw (status "405"), e)
  | None => (Ok tt, with_resources <[path := Collection]> e)
  end.

Definition do_deleteFile (path : string) (e : t) : Result unit * t :=
  match resources e !! path with
  | Some _ =>
      (Ok tt, with_resources (filter (fun pr => pr.1 ≠ path ∧ below path pr.1 = false)) e)
  | None => (Throw (status "404"), e)
  end.

(** The client needs a path string and a body. *)
Definition do_putFileContents (path data : Value) (e : t) : Result unit * t :=
  match path, data with
  | VString path, VBuffer content =>
      match resources e !! path with
      | Some Collection => (Throw (status "405"), e)
      | _ => (Ok tt, with_resources <[path := File content]> e)
      end
  | _, _ => (Throw (TypeError "path is not a string"), e)
  end.

Definition do_copyFile (source target : string) (e : t) : Result unit * t :=
  match resources e !! source with
  | Some r => (Ok tt, with_resources <[target := r]> e)
  | None => (Throw (status "404"), e)
  end.

Definition do_moveFile (source target : string) (e : t) : Result unit * t :=
  match strip_suffix "/.file" source with
  | Some container =>
      match resources e !! container with
      | Some Collection => (Ok tt, with_resources (assemble container target) e)
      | _ => (Throw (status "404"), e)
      end
  | None =>
      match resources e !! source with
      | Some r => (Ok tt, with_resources (fun rs => <[target := r]> (delete source rs)) e)
      | None => (Throw (status "404"), e)
      end
  end.

Definition do_getFileContents (path : string) (e : t) : Result (list Byte.byte) * t :=
  match resources e !! path with
  | Some (File content) => (Ok content, e)
  | _ => (Throw (status "404"), e)
  end.

Definition do_mount (fileSystemId : string) (e : t) : Result unit * t :=
  if bool_decide (fileSystemId ∈ mounted e) then (Throw (Error "EXISTS"), e)
  else (Ok tt, with_mounted (union {[fileSystemId]}) e).

Definition do_unmount (fileSystemId : string) (e : t) : Result unit * t :=
  if bool_decide (fileSystemId ∈ mounted e)
  then (Ok tt, with_mounted (fun s => s ∖ {[fileSystemId]}) e)
  else (Throw (Error "NOT_FOUND"), e).

Definition do_uuidv1 (e : t) : string * t :=
  ("uuid-" ++ String_ (issued e),
   {| origin := origin e; accounts := accounts e; resources := resources e;
      mounted := mounted e; issued := N.succ (issued e) |}).

#[global] Instance collaborators : Collaborators t := {|
  uuidv1 := do_uuidv1;
  fileSystemProvider_get fileSystemId e := bool_decide (fileSystemId ∈ mounted e);
  fileSystemProvider_mount fileSystemId _ _ := do_mount fileSystemId;
  fileSystemProvider_unmount := do_unmount;
  getDirectoryContents client path := request client (do_getDirectoryContents path);
  stat client path := request client (do_stat path);
  createDirectory client path := request client (do_createDirectory path);
  deleteFile client path := request client (do_deleteFile path);
  putFileContents client path data := request client (do_putFileContents path data);
  copyFile client source target := request client (do_copyFile source target);
  moveFile client source target := request client (do_moveFile source target);
  getFileContents client path := request client (do_getFileContents path);
|}.

(** A server at [https://example.com/dav] with the account
    [alice]/[secret], a directory [/reports] holding [q1.pdf], and a
    four-byte [/a.txt]. *)
Definition example : t := {|
  origin := "https://example.com/dav";
  accounts := {[ "alice" := "secret" ]};
  resources := {[ "/" := Collection;
                  "/reports" := Collection;
                  "/reports/q1.pdf" := File ["%"; "P"; "D"; "F"]%byte;
                  "/a.txt" := File ["a"; "b"; "c"; "d"]%byte ]};
  mounted := ∅;
  issued := 0;
|}.

End Cloud.

(** The provider right after construction, before anything is mounted. *)
Definition initial {E} (e : E) : World E := {|
  webDAVClientMap := ∅;
  openedFilesMap := ∅;
  metadataCacheMap := ∅;
  mountedCredentials := None;
  env := e;
  calls := [];
|}.

Definition alice : MountOptions :=
  {| name := "Docs"; url := "https://example.com/dav"; username := "alice"; password := "secret" |}.

(** ** The mutating requests that evict

    The four handlers that end with [metadataCache.remove], as one request
    type, with the paths each one names. *)
Inductive Mutation :=
| DeleteEntry (entryPath : string)
| CreateFile (filePath : string)
| CopyEntry (sourcePath targetPath : string)
| MoveEntry (sourcePath targetPath : string).

Definition requested {E} `{Collaborators E} (fileSystemId : string) (m : Mutation) : M E unit :=
  match m with
  | DeleteEntry entryPath => onDeleteEntryRequested fileSystemId entryPath
  | CreateFile filePath => onCreateFileRequested fileSystemId filePath
  | CopyEntry sourcePath targetPath => onCopyEntryRequested fileSystemId sourcePath targetPath
  | MoveEntry sourcePath targetPath => onMoveEntryRequested fileSystemId sourcePath targetPath
  end.


(** ** Example worlds *)

Definition alice_fs : string := createFileSystemID (url alice) (username alice).

Definition alice_client : WebDAV.Client :=
  WebDAV.createClient (url alice) (username alice) (password alice).

(** The provider after [mount(alice)] against the example cloud. *)
Definition mounted_alice : World Cloud.t := (mount alice (initial Cloud.example)).2.

(** The metadata of [/a.txt] as a stat of it translates. *)
Definition a_txt : Obj :=
  fromStat (Cloud.stat_of "/a.txt" (Cloud.File ["a"; "b"; "c"; "d"]%byte)).

(** A cache that has seen [/a.txt] both in the listing of [/] and on its
    own. *)
Definition warm_cache : MetadataCache.t :=
  MetadataCache.putEntry "/a.txt" a_txt (MetadataCache.put "/" [a_txt] MetadataCache.empty).

Definition warm_alice : World Cloud.t :=
  with_metadataCacheMap <[alice_fs := warm_cache]> mounted_alice.

(** A metadata request for [/a.txt] that asks for the name and the size. *)
Definition wants_a_txt : GetMetadataRequestedOptions.t := {|
  GetMetadataRequestedOptions.fileSystemId := alice_fs;
  GetMetadataRequestedOptions.entryPath := "/a.txt";
  GetMetadataRequestedOptions.thumbnail := false;
  GetMetadataRequestedOptions.rest := {[ "name" := VBool true; "size" := VBool true ]};
|}.

(** A state for the write and close handlers taken on their own:
    [warm_alice] with a handle of mode WRITE put into the table under
    request 1 and its staging container [/session] put on the server.  No
    request registers such a handle. *)
Definition writing_alice : World Cloud.t :=
  with_openedFilesMap <[String_ 1 := Handle "/a.txt" "WRITE" "session"]>
    (with_env (Cloud.with_resources <["/session" := Cloud.Collection]> (env warm_alice))
       warm_alice).

(** A second persisted record, whose password the server does not know. *)
Definition mallory : MountOptions :=
  {| name := "Stale"; url := "https://example.com/dav"; username := "mallory";
     password := "guess" |}.

Definition mallory_fs : string := createFileSystemID (url mallory) (username mallory).

(** The provider after a restart, with two persisted records: the stale
    one first, then alice's. *)
Definition restarted : World Cloud.t :=
  with_mountedCredentials (Some [(mallory_fs, mallory); (alice_fs, alice)])
    (initial Cloud.example).

(** ** Specification-side definitions *)

(** The spec's "fixed-width zero-padded decimal encoding": the last [width]
    decimal digits of [n], most significant first. *)
Fixpoint fixedWidthDecimal (width : nat) (n : N) : string :=
  match width with
  | O => ""
  | S width' => fixedWidthDecimal width' (n / 10) ++ String (pretty_N_char (n mod 10)) ""
  end.

(** The numeric order of the byte ranges [(offset, end)]. *)
Definition compare_ranges (a b : N * N) : comparison :=
  match (a.1 ?= b.1)%N with
  | Eq => (a.2 ?= b.2)%N
  | c => c
  end.

(** The byte range a write covers. *)
Definition range (offset : N) (data : list Byte.byte) : N * N :=
  (offset, (offset + byteLength data)%N).

(** The writes of a session, issued in the given order: each element is
    the [(offset, data)] of one write request. *)
Definition writes {E} `{Collaborators E} (fileSystemId : string) (openRequestId : N)
    (order : list (N * list Byte.byte)) : M E unit :=
  for_of order (fun '(offset, data) => onWriteFileRequested fileSystemId openRequestId offset data).

(** Request [openRequestId] is open for writing on [filePath] in session
    [uuid]: the mount has a client the server accepts, and the staging
    container exists and is still empty. *)
Record WriteSession (w : World Cloud.t) (fileSystemId : string) (client : WebDAV.Client)
    (openRequestId : N) (filePath uuid : string) : Prop := {
  session_client : webDAVClientMap w !! fileSystemId = Some client;
  session_authorised : Cloud.authorised client (env w) = true;
  session_handle : openedFilesMap w !! String_ openRequestId = Some (Handle filePath "WRITE" uuid);
  session_container : Cloud.resources (env w) !! ("/" ++ uuid) = Some Cloud.Collection;
  session_empty :
    ∀ path, Cloud.below ("/" ++ uuid) path = true → Cloud.resources (env w) !! path = None;
}.

(** ** Reading the state *)

(** [o[key]] on an object kept in property order. *)
Fixpoint propertyOf {V} (key : string) (o : list (string * V)) : option V :=
  match o with
  | [] => None
  | (k, x) :: o' => if String.eqb k key then Some x else propertyOf key o'
  end.

(** [mountedCredentials[fileSystemId]] in [browser.storage.local]. *)
Definition stored {E} (fileSystemId : string) (w : World E) : option MountOptions :=
  propertyOf fileSystemId (default [] (mountedCredentials w)).

(** The id a persisted record is resumed under. *)
Definition fileSystemIdOf (credential : MountOptions) : string :=
  createFileSystemID (url credential) (username credential).

(** The provider's own state (its three private maps and the persisted
    records) is the same in [w'] as in [w]. *)
Definition untouched {E} (w w' : World E) : Prop :=
  webDAVClientMap w' = webDAVClientMap w
  ∧ openedFilesMap w' = openedFilesMap w
  ∧ metadataCacheMap w' = metadataCacheMap w
  ∧ mountedCredentials w' = mountedCredentials w.

(** ** The listeners of [#assignEventHandlers]

    A handler that returns has its result handed to [successCallback]; one
    that throws has [errorCallback] called with the reason. *)
Inductive Outcome (A : Type) :=
| SuccessCallback (result : A)
| ErrorCallback (reason : string).
Arguments SuccessCallback {A} result.
Arguments ErrorCallback {A} reason.

Definition listener {E A} (handler : M E A) (w : World E) : Outcome A * World E :=
  match handler w with
  | (Ok result, w') => (SuccessCallback result, w')
  | (Throw error, w') => (ErrorCallback (reason error), w')
  end.

(** The property names of the persisted records. *)
Definition storedIds {E} (w : World E) : list string :=
  (default [] (mountedCredentials w)).*1.

(** The provider after mallory's record failed to mount. *)
Definition refused_mallory : World Cloud.t := (mount mallory (initial Cloud.example)).2.

(** [mounted_alice] with request 7 open for reading on [/a.txt]. *)
Definition reading_alice : World Cloud.t :=
  (onOpenFileRequested 7 "/a.txt" "READ" mounted_alice).2.

(** A listing request for [/reports] that asks for names and sizes. *)
Definition lists_reports : ReadDirectoryRequestedOptions.t := {|
  ReadDirectoryRequestedOptions.fileSystemId := alice_fs;
  ReadDirectoryRequestedOptions.directoryPath := "/reports";
  ReadDirectoryRequestedOptions.rest := {[ "name" := VBool true; "size" := VBool true ]};
|}.

(** A listing request for a directory the server does not have. *)
Definition lists_missing : ReadDirectoryRequestedOptions.t := {|
  ReadDirectoryRequestedOptions.fileSystemId := alice_fs;
  ReadDirectoryRequestedOptions.directoryPath := "/missing";
  ReadDirectoryRequestedOptions.rest := ∅;
|}.

(** A metadata request for a path the server does not have. *)
Definition wants_missing : GetMetadataRequestedOptions.t := {|
  GetMetadataRequestedOptions.fileSystemId := alice_fs;
  GetMetadataRequestedOptions.entryPath := "/missing";
  GetMetadataRequestedOptions.thumbnail := false;
  GetMetadataRequestedOptions.rest := {[ "name" := VBool true ]};
|}.

(** Whether the cache of [fileSystemId] holds an entry for [path]. *)
Definition cached {E} (fileSystemId path : string) (w : World E) : bool :=
  match metadataCacheMap w !! fileSystemId with
  | Some metadataCache => MetadataCache.holds metadataCache path
  | None => false
  end.




(** The provider after a restart with the record that [mount(alice)]
    persisted: the constructor's [#resume] has run, the listing of
    [/reports] was requested and request 7 is open for reading on
    [/a.txt].  The host has no file system under alice's id: it was
    removed on the host's side while the provider was not running. *)
Definition resumed_alice : World Cloud.t :=
  (onOpenFileRequested 7 "/a.txt" "READ"
     (onReadDirectoryRequested lists_reports
        (resume (with_mountedCredentials (mountedCredentials mounted_alice)
                   (initial Cloud.example))).2).2).2.

(** ** Runs of the provider

    What the provider is asked to do after its construction: its public
    methods and the events of [#assignEventHandlers] whose handlers are
    modelled above (all but [onReadFileRequested], which reads the two
    maps and assigns to neither). *)
Inductive Request :=
| IsMounted (url username : string)
| Mount (options : MountOptions)
| ResumeMounts
| UnmountRequested (fileSystemId : string)
| ReadDirectoryRequested (options : ReadDirectoryRequestedOptions.t)
| GetMetadataRequested (options : GetMetadataRequestedOptions.t)
| OpenFileRequested (requestId : N) (filePath mode : string)
| CloseFileRequested (fileSystemId : string) (openRequestId : N)
| CreateDirectoryRequested (fileSystemId directoryPath : string)
| MutationRequested (fileSystemId : string) (m : Mutation)
| TruncateRequested (fileSystemId filePath : string) (length : N)
| WriteFileRequested (fileSystemId : string) (openRequestId offset : N) (data : list Byte.byte)
| AbortRequested (fileSystemId : string) (operationRequestId : N).

(** The state a request leaves behind, whether its handler returned or
    threw. *)
Definition served {E} `{Collaborators E} (r : Request) (w : World E) : World E :=
  match r with
  | IsMounted url username => (isMounted url username w).2
  | Mount options => (mount options w).2
  | ResumeMounts => (resumeMounts w).2
  | UnmountRequested fileSystemId => (onUnmountRequested fileSystemId w).2
  | ReadDirectoryRequested options => (onReadDirectoryRequested options w).2
  | GetMetadataRequested options => (onGetMetadataRequested options w).2
  | OpenFileRequested requestId filePath mode => (onOpenFileRequested requestId filePath mode w).2
  | CloseFileRequested fileSystemId openRequestId =>
      (onCloseFileRequested fileSystemId openRequestId w).2
  | CreateDirectoryRequested fileSystemId directoryPath =>
      (onCreateDirectoryRequested fileSystemId directoryPath w).2
  | MutationRequested fileSystemId m => (requested fileSystemId m w).2
  | TruncateRequested fileSystemId filePath length =>
      (onTruncateRequested fileSystemId filePath length w).2
  | WriteFileRequested fileSystemId openRequestId offset data =>
      (onWriteFileRequested fileSystemId openRequestId offset data w).2
  | AbortRequested fileSystemId operationRequestId =>
      (onAbortRequested fileSystemId operationRequestId w).2
  end.

(** The states of a run: the constructor's [#resume] over whatever records
    the storage holds, against any outside world, and then any requests,
    one after the other. *)
Inductive reachable {E} `{Collaborators E} : World E → Prop :=
| reachable_constructed (e : E) (storage : option (list (string * MountOptions))) :
    reachable (resume (with_mountedCredentials storage (initial e))).2
| reachable_served (r : Request) (w : World E) :
    reachable w → reachable (served r w).

(** No handle in the table has mode WRITE. *)
Definition noWriteHandle {E} (w : World E) : Prop :=
  ∀ key filePath mode uuid,
    openedFilesMap w !! key = Some (Handle filePath mode uuid) → mode ≠ "WRITE".

(** [m] keeps the property [P] of the state, whether it returns or
    throws. *)
Definition preserves {E A} (P : World E → Prop) (m : M E A) : Prop :=
  ∀ w, P w → P (m w).2.

(** [P] is about the provider's own state, not about the outside world or
    the log of calls. *)
Definition internal {E} (P : World E → Prop) : Prop :=
  (∀ c e w, P w → P (with_call c e w)) ∧ (∀ e w, P w → P (with_env e w)).

(** * Properties *)

(** ** Strings *)

Lemma string_app_cons (x : ascii) (a b : string) : String x a ++ b = String x (a ++ b).
Proof. reflexivity. Qed.

Lemma string_app_assoc (a b c : string) : (a ++ b) ++ c = a ++ (b ++ c).
Proof.
  induction a as [|x a IH]; [reflexivity |].
  rewrite !string_app_cons. now rewrite IH.
Qed.

Lemma string_app_nil_r (a : string) : a ++ "" = a.
Proof.
  induction a as [|x a IH]; [reflexivity |].
  rewrite string_app_cons. now rewrite IH.
Qed.

Lemma string_length_app (a b : string) :
  String.length (a ++ b) = String.length a + String.length b.
Proof.
  induction a as [|x a IH]; [reflexivity |].
  rewrite string_app_cons. cbn. now rewrite IH.
Qed.

Lemma substring_all (s : string) : String.substring 0 (String.length s) s = s.
Proof. induction s as [|x s IH]; cbn; [reflexivity | now rewrite IH]. Qed.

Lemma substring_skip (a b : string) :
  String.substring (String.length a) (String.length b) (a ++ b) = b.
Proof.
  induction a as [|x a IH]; [apply substring_all |].
  rewrite string_app_cons. cbn. exact IH.
Qed.

(** [s.slice(-n)] is the last [n] characters. *)
Lemma slice_last (a b : string) :
  b ≠ "" → slice (a ++ b) (- Z.of_nat (String.length b)) = b.
Proof.
  intros Hb. unfold slice. rewrite string_length_app.
  assert (0 < String.length b) by (destruct b; [congruence | cbn; lia]).
  destruct (Z.ltb_spec (- Z.of_nat (String.length b)) 0) as [_|]; [|lia].
  replace (Z.to_nat (Z.max _ 0)) with (String.length a) by lia.
  replace (Z.to_nat _) with (String.length b) by lia.
  apply substring_skip.
Qed.

Lemma ascii_compare_refl (a : ascii) : Ascii.compare a a = Eq.
Proof. unfold Ascii.compare. apply N.compare_refl. Qed.

Lemma string_compare_refl (s : string) : String.compare s s = Eq.
Proof. induction s as [|x s IH]; cbn; [reflexivity | now rewrite ascii_compare_refl]. Qed.

(** Comparing behind a common prefix. *)
Lemma string_compare_app_l (p a b : string) :
  String.compare (p ++ a) (p ++ b) = String.compare a b.
Proof.
  induction p as [|x p IH]; [reflexivity |].
  rewrite !string_app_cons. cbn. now rewrite ascii_compare_refl.
Qed.

(** Comparing two strings whose fronts have the same length. *)
Lemma string_compare_app (a1 a2 b1 b2 : string) :
  String.length a1 = String.length a2 →
  String.compare (a1 ++ b1) (a2 ++ b2)
  = match String.compare a1 a2 with Eq => String.compare b1 b2 | c => c end.
Proof.
  revert a2. induction a1 as [|x a1 IH]; intros [|y a2] Hlen; cbn in Hlen; try lia.
  - reflexivity.
  - rewrite !string_app_cons. cbn.
    destruct (Ascii.compare x y); [apply IH; lia | reflexivity..].
Qed.

(** ** Mount identities (C10) *)

Lemma createFileSystemID_slash (a b c : string) :
  createFileSystemID (b ++ "/" ++ c) a = createFileSystemID c (a ++ "/" ++ b).
Proof. unfold createFileSystemID. now rewrite !string_app_assoc. Qed.

(** C10.  The mount identity is a function of [(url, username)], and it is
    not injective: two different configurations, one of them with a slash
    in the user name, get the same identity string. *)
Theorem createFileSystemID_not_injective :
  ∃ url1 username1 url2 username2 : string,
    (url1, username1) ≠ (url2, username2)
    ∧ createFileSystemID url1 username1 = createFileSystemID url2 username2.
Proof.
  exists "b/c", "a", "c", "a/b". split; [discriminate |].
  apply (createFileSystemID_slash "a" "b" "c").
Qed.

(** ** Field projection (C9) *)

Lemma canonicalize_fold (options : Obj) (key : string) (l : list string) (m : Obj) :
  foldl (fun _metadata key =>
           if negb (truthy (prop options key)) then delete key _metadata else _metadata)
        m l !! key
  = if bool_decide (key ∈ l) && negb (truthy (prop options key)) then None else m !! key.
Proof.
  revert m. induction l as [|k l IH]; intros m; cbn [foldl].
  - rewrite bool_decide_eq_false_2 by apply not_elem_of_nil. reflexivity.
  - rewrite IH. destruct (decide (k = key)) as [->|Hne].
    + rewrite (bool_decide_eq_true_2 (key ∈ key :: l)) by apply list_elem_of_here.
      destruct (truthy (prop options key)); cbn.
      * rewrite andb_false_r. reflexivity.
      * rewrite andb_true_r, lookup_delete_eq. now destruct (bool_decide _).
    + assert (bool_decide (key ∈ k :: l) = bool_decide (key ∈ l)) as ->.
      { apply bool_decide_ext. rewrite elem_of_cons. split; [intros [?|?]; congruence | auto]. }
      destruct (negb (truthy (prop options k))); [|reflexivity].
      now rewrite lookup_delete_ne.
Qed.

Lemma elem_of_keys (o : Obj) (key : string) : key ∈ keys o ↔ is_Some (o !! key).
Proof.
  unfold keys. rewrite list_elem_of_fmap. split.
  - intros [[k v] [-> Hin]]. apply elem_of_map_to_list in Hin. eauto.
  - intros [v Hv]. exists (key, v). split; [reflexivity | now apply elem_of_map_to_list].
Qed.

(** C9.  The metadata returned to the caller has exactly the fields of the
    record whose option flag is truthy, with their values, and no other
    field. *)
Theorem canonicalizedMetadata_projects (metadata options : Obj) (key : string) :
  canonicalizedMetadata metadata options !! key
  = if truthy (prop options key) then metadata !! key else None.
Proof.
  unfold canonicalizedMetadata. rewrite canonicalize_fold.
  destruct (truthy (prop options key)); cbn.
  - now rewrite andb_false_r.
  - rewrite andb_true_r.
    destruct (bool_decide (key ∈ keys metadata)) eqn:Hin; [reflexivity |].
    apply bool_decide_eq_false in Hin. rewrite elem_of_keys in Hin.
    now apply eq_None_not_Some in Hin.
Qed.

(** ** Chunk names (C3) *)

Lemma fixedWidthDecimal_length (width : nat) (n : N) :
  String.length (fixedWidthDecimal width n) = width.
Proof.
  revert n. induction width as [|k IH]; intros n; [reflexivity |].
  cbn [fixedWidthDecimal]. rewrite string_length_app, IH. cbn. lia.
Qed.

Lemma zeros_shift (k : nat) :
  fixedWidthDecimal k 0 ++ "0" = "0" ++ fixedWidthDecimal k 0.
Proof.
  induction k as [|k IH]; [reflexivity |].
  cbn [fixedWidthDecimal]. change (0 / 10)%N with 0%N. change (0 mod 10)%N with 0%N.
  change (String (pretty_N_char 0) "") with "0".
  rewrite IH at 1. now rewrite string_app_assoc.
Qed.

(** Behind enough zeros, the digits [pretty_N_go] produces end in the
    fixed-width encoding. *)
Lemma pretty_N_go_fixed (k : nat) (x : N) (s : string) :
  (x < 10 ^ N.of_nat k)%N →
  ∃ front, fixedWidthDecimal k 0 ++ pretty_N_go x s = front ++ fixedWidthDecimal k x ++ s.
Proof.
  revert x s. induction k as [|k IH]; intros x s Hx.
  - assert (x = 0%N) as -> by (cbn in Hx; lia). exists "". reflexivity.
  - destruct (decide (x = 0%N)) as [->|Hpos].
    + exists "". rewrite pretty_N_go_0. reflexivity.
    + rewrite pretty_N_go_step by lia.
      assert ((x / 10 < 10 ^ N.of_nat k)%N) as Hdiv.
      { apply N.Div0.div_lt_upper_bound.
        rewrite Nat2N.inj_succ, N.pow_succ_r' in Hx. lia. }
      destruct (IH (x / 10)%N (String (pretty_N_char (x mod 10)) s) Hdiv) as [front Hfront].
      exists ("0" ++ front).
      cbn [fixedWidthDecimal]. change (0 / 10)%N with 0%N. change (0 mod 10)%N with 0%N.
      change (String (pretty_N_char 0) "") with "0".
      rewrite zeros_shift, !string_app_assoc. rewrite Hfront. reflexivity.
Qed.

(** Below 10^15 [paddedIndex] is the 15-digit encoding. *)
Lemma paddedIndex_fixed (index : N) :
  (index < 10 ^ 15)%N → paddedIndex index = fixedWidthDecimal 15 index.
Proof.
  intros Hlt. destruct (decide (index = 0%N)) as [->|Hpos]; [reflexivity |].
  unfold paddedIndex, String_, pretty, pretty_N. rewrite decide_False by assumption.
  destruct (pretty_N_go_fixed 15 index "" Hlt) as [front Hfront].
  change (fixedWidthDecimal 15 0) with "000000000000000" in Hfront.
  rewrite Hfront, string_app_nil_r.
  change (String.length "000000000000000") with 15.
  rewrite <- (fixedWidthDecimal_length 15 index) at 1.
  apply slice_last. intros Hnil.
  pose proof (fixedWidthDecimal_length 15 index) as Hlen. rewrite Hnil in Hlen. discriminate.
Qed.

Lemma digit_compare (x y : N) :
  (x < 10)%N → (y < 10)%N →
  String.compare (String (pretty_N_char x) "") (String (pretty_N_char y) "") = (x ?= y)%N.
Proof.
  intros Hx Hy.
  assert (x = 0 ∨ x = 1 ∨ x = 2 ∨ x = 3 ∨ x = 4 ∨ x = 5 ∨ x = 6 ∨ x = 7 ∨ x = 8 ∨ x = 9)%N
    as Hxs by lia.
  assert (y = 0 ∨ y = 1 ∨ y = 2 ∨ y = 3 ∨ y = 4 ∨ y = 5 ∨ y = 6 ∨ y = 7 ∨ y = 8 ∨ y = 9)%N
    as Hys by lia.
  clear Hx Hy.
  repeat (destruct Hxs as [->|Hxs]); try subst x;
    repeat (destruct Hys as [->|Hys]); try subst y; reflexivity.
Qed.

Lemma compare_by_digits (a b : N) :
  (a ?= b)%N
  = match (a / 10 ?= b / 10)%N with
    | Eq => (a mod 10 ?= b mod 10)%N
    | c => c
    end.
Proof.
  pose proof (N.div_mod a 10 ltac:(discriminate)) as Ha.
  pose proof (N.div_mod b 10 ltac:(discriminate)) as Hb.
  pose proof (N.mod_lt a 10 ltac:(discriminate)) as Hra.
  pose proof (N.mod_lt b 10 ltac:(discriminate)) as Hrb.
  revert Ha Hb Hra Hrb.
  generalize (a / 10)%N (b / 10)%N (a mod 10)%N (b mod 10)%N.
  intros qa qb ra rb Ha Hb Hra Hrb.
  destruct (N.compare_spec qa qb) as [Hq|Hq|Hq].
  - destruct (N.compare_spec ra rb) as [Hr|Hr|Hr].
    + apply N.compare_eq_iff. lia.
    + apply N.compare_lt_iff. lia.
    + apply N.compare_gt_iff. lia.
  - apply N.compare_lt_iff. lia.
  - apply N.compare_gt_iff. lia.
Qed.

(** Fixed-width encodings compare as their numbers do. *)
Lemma fixedWidthDecimal_compare (k : nat) (a b : N) :
  (a < 10 ^ N.of_nat k)%N → (b < 10 ^ N.of_nat k)%N →
  String.compare (fixedWidthDecimal k a) (fixedWidthDecimal k b) = (a ?= b)%N.
Proof.
  revert a b. induction k as [|k IH]; intros a b Ha Hb.
  - assert (a = 0%N) as -> by (cbn in Ha; lia).
    assert (b = 0%N) as -> by (cbn in Hb; lia). reflexivity.
  - rewrite Nat2N.inj_succ, N.pow_succ_r' in Ha, Hb.
    cbn [fixedWidthDecimal].
    rewrite string_compare_app by now rewrite !fixedWidthDecimal_length.
    rewrite IH by (apply N.Div0.div_lt_upper_bound; lia).
    rewrite digit_compare by (apply N.mod_lt; discriminate).
    symmetry. apply compare_by_digits.
Qed.

Lemma paddedIndex_compare (a b : N) :
  (a < 10 ^ 15)%N → (b < 10 ^ 15)%N →
  String.compare (paddedIndex a) (paddedIndex b) = (a ?= b)%N.
Proof.
  intros Ha Hb. rewrite !paddedIndex_fixed by assumption.
  now apply (fixedWidthDecimal_compare 15).
Qed.

Lemma paddedIndex_length (a : N) : (a < 10 ^ 15)%N → String.length (paddedIndex a) = 15.
Proof. intros Ha. rewrite paddedIndex_fixed by assumption. apply fixedWidthDecimal_length. Qed.

(** C3, as the code has it.  For two chunk writes of one session whose
    byte ranges end below 10^15 (the width of the padding), the chunk
    object names, and so the upload paths, compare as strings exactly as
    the ranges [(offset, end)] compare as pairs of numbers. *)
Theorem chunk_names_sort_in_byte_order
    (uuid : option string) (offset1 offset2 : N) (data1 data2 : list Byte.byte) :
  (offset1 + byteLength data1 < 10 ^ 15)%N →
  (offset2 + byteLength data2 < 10 ^ 15)%N →
  String.compare (chunkName offset1 data1) (chunkName offset2 data2)
  = compare_ranges (range offset1 data1) (range offset2 data2)
  ∧ String.compare (uploadPath uuid offset1 data1) (uploadPath uuid offset2 data2)
    = compare_ranges (range offset1 data1) (range offset2 data2).
Proof.
  intros H1 H2.
  assert (String.compare (chunkName offset1 data1) (chunkName offset2 data2)
          = compare_ranges (range offset1 data1) (range offset2 data2)) as Hnames.
  { unfold chunkName, compare_ranges, range; cbn [fst snd].
    rewrite string_compare_app by (rewrite !paddedIndex_length; [reflexivity | lia..]).
    rewrite paddedIndex_compare by lia.
    destruct (offset1 ?= offset2)%N; try reflexivity.
    rewrite (string_compare_app "-" "-") by reflexivity.
    cbn [String.compare]. rewrite ascii_compare_refl.
    apply paddedIndex_compare; assumption. }
  split; [exact Hnames |].
  unfold uploadPath. rewrite <- !string_app_assoc.
  rewrite string_compare_app_l. exact Hnames.
Qed.

Lemma chunk_names_sort_in_byte_order_witness :
  String.compare (chunkName 0 [x00; x01]%byte) (chunkName 2 [x02]%byte)
  = compare_ranges (range 0 [x00; x01]%byte) (range 2 [x02]%byte).
Proof.
  apply (chunk_names_sort_in_byte_order None 0 2 [x00; x01]%byte [x02]%byte); reflexivity.
Defined.

(** C3, as the spec has it, fails once an offset needs more than fifteen
    digits: [paddedIndex] keeps the last fifteen, so the chunks at offsets
    0 and 10^15 get the same name. *)
Lemma chunk_names_collide_beyond_padding :
  ¬ (∀ (offset1 offset2 : N) (data1 data2 : list Byte.byte),
        String.compare (chunkName offset1 data1) (chunkName offset2 data2)
        = compare_ranges (range offset1 data1) (range offset2 data2)).
Proof.
  intros Hall. specialize (Hall 0%N (10 ^ 15)%N [x00]%byte [x00]%byte).
  vm_compute in Hall. discriminate Hall.
Qed.

(** ** Running handlers *)

(** Unfold one handler down to the collaborators' answers. *)
Ltac run :=
  unfold bind, gets, modify, defined, ret, throw, unbound, await, unawaited; cbn beta iota.

Lemma bind_ok {E A B} (m : M E A) (k : A → M E B) (w w' : World E) (a : A) :
  m w = (Ok a, w') → bind m k w = k a w'.
Proof. intros Hm. unfold bind. now rewrite Hm. Qed.

Lemma bind_throw {E A B} (m : M E A) (k : A → M E B) (w w' : World E) (e : Exn) :
  m w = (Throw e, w') → bind m k w = (Throw e, w').
Proof. intros Hm. unfold bind. now rewrite Hm. Qed.

(** Inversion of a run that returned. *)
Lemma bind_inv {E A B} (m : M E A) (k : A → M E B) (w w' : World E) (b : B) :
  bind m k w = (Ok b, w') → ∃ a w1, m w = (Ok a, w1) ∧ k a w1 = (Ok b, w').
Proof.
  unfold bind. destruct (m w) as [[a|e] w1]; [eauto | discriminate].
Qed.

Lemma gets_inv {E A} (f : World E → A) (w w' : World E) (a : A) :
  gets f w = (Ok a, w') → a = f w ∧ w' = w.
Proof. unfold gets. intros [= -> ->]. auto. Qed.

Lemma defined_inv {E A} (receiver : option A) (w w' : World E) (a : A) :
  defined receiver w = (Ok a, w') → receiver = Some a ∧ w' = w.
Proof. destruct receiver; cbn; [intros [= <- <-]; auto | discriminate]. Qed.

Lemma modify_inv {E} (f : World E → World E) (w w' : World E) (u : unit) :
  modify f w = (Ok u, w') → w' = f w.
Proof. unfold modify. congruence. Qed.

Lemma await_inv {E A} (c : Call) (answer : E → Result A * E) (w w' : World E) (a : A) :
  await c answer w = (Ok a, w') →
  ∃ e, answer (env w) = (Ok a, e) ∧ w' = with_call c e w.
Proof.
  unfold await. destruct (answer (env w)) as [r e]. intros [= -> <-]. eauto.
Qed.

Lemma unawaited_inv {E A} (c : Call) (answer : E → Result A * E) (w w' : World E) (u : unit) :
  unawaited c answer w = (Ok u, w') → w' = with_call c (answer (env w)).2 w.
Proof.
  unfold unawaited. destruct (answer (env w)) as [r e]. cbn. congruence.
Qed.

(** Take a returned run apart, statement by statement. *)
Ltac unwind H :=
  repeat match type of H with
    | bind _ _ _ = (Ok _, _) =>
        let a := fresh "a" in
        let w1 := fresh "w" in
        let H1 := fresh "Hstep" in
        apply bind_inv in H as (a & w1 & H1 & H);
        cbn beta in H;
        first
          [ apply gets_inv in H1 as [-> ->]
          | apply defined_inv in H1 as [H1 ->]
          | apply modify_inv in H1 as ->
          | apply unawaited_inv in H1 as ->
          | let e := fresh "e" in
            let He := fresh "Hanswer" in
            apply await_inv in H1 as (e & He & ->)
          | idtac ]
    end.

(** ** Metadata requests (C5) *)

Lemma MetadataCache_get_entry (path : string) (c : MetadataCache.t) :
  MetadataCache.fileExists (MetadataCache.get path c) = true →
  ∃ metadata, MetadataCache.metadata (MetadataCache.get path c) = Some metadata
              ∧ MetadataCache.entries c !! path = Some metadata.
Proof.
  unfold MetadataCache.get; cbn. intros Hentry. apply bool_decide_eq_true in Hentry.
  destruct Hentry as [metadata Hm]. exists metadata. now rewrite Hm.
Qed.

(** A request the cache cannot answer goes to [stat]. *)
Lemma onGetMetadataRequested_miss {E} `{Collaborators E}
    (options : GetMetadataRequestedOptions.t) (w : World E)
    (metadataCache : MetadataCache.t) (client : WebDAV.Client) :
  let fileSystemId := GetMetadataRequestedOptions.fileSystemId options in
  let entryPath := GetMetadataRequestedOptions.entryPath options in
  let cache := MetadataCache.get entryPath metadataCache in
  GetMetadataRequestedOptions.thumbnail options = false →
  metadataCacheMap w !! fileSystemId = Some metadataCache →
  MetadataCache.directoryExists cache && MetadataCache.fileExists cache = false →
  webDAVClientMap w !! fileSystemId = Some client →
  onGetMetadataRequested options w
  = (match (stat client entryPath (env w)).1 with
     | Ok st => Ok [canonicalizedMetadata (fromStat st)
                      (GetMetadataRequestedOptions.as_object options)]
     | Throw e => Throw e
     end,
     with_call (StatCall client entryPath) (stat client entryPath (env w)).2 w).
Proof.
  intros fileSystemId entryPath cache Hthumbnail Hcache Hflags Hclient.
  unfold onGetMetadataRequested. rewrite Hthumbnail.
  fold fileSystemId entryPath. run. rewrite Hcache, Hclient. fold cache. rewrite Hflags.
  destruct (stat client entryPath (env w)) as [[st|e] e']; reflexivity.
Qed.

(** A request the cache can answer calls nothing. *)
Lemma onGetMetadataRequested_hit {E} `{Collaborators E}
    (options : GetMetadataRequestedOptions.t) (w : World E)
    (metadataCache : MetadataCache.t) (metadata : Obj) :
  let fileSystemId := GetMetadataRequestedOptions.fileSystemId options in
  let entryPath := GetMetadataRequestedOptions.entryPath options in
  let cache := MetadataCache.get entryPath metadataCache in
  GetMetadataRequestedOptions.thumbnail options = false →
  metadataCacheMap w !! fileSystemId = Some metadataCache →
  MetadataCache.directoryExists cache && MetadataCache.fileExists cache = true →
  MetadataCache.metadata cache = Some metadata →
  onGetMetadataRequested options w
  = (Ok [canonicalizedMetadata metadata (GetMetadataRequestedOptions.as_object options)], w).
Proof.
  intros fileSystemId entryPath cache Hthumbnail Hcache Hflags Hm.
  unfold onGetMetadataRequested. rewrite Hthumbnail.
  fold fileSystemId entryPath. run. rewrite Hcache. fold cache. now rewrite Hflags, Hm.
Qed.

(** C5.  A metadata request without thumbnail, on a mount whose cache is
    [metadataCache]: when the cache reports both flags for the path, the
    answer is the cached metadata (projected to the requested fields) and
    nothing is called, the world is as before; otherwise exactly one [stat]
    of the path goes to the mount's client and the answer is the
    translation of what it returns (its failure, if it fails). *)
Theorem getMetadata_from_cache_or_stat {E} `{Collaborators E}
    (options : GetMetadataRequestedOptions.t) (w : World E) (metadataCache : MetadataCache.t) :
  let fileSystemId := GetMetadataRequestedOptions.fileSystemId options in
  let entryPath := GetMetadataRequestedOptions.entryPath options in
  let cache := MetadataCache.get entryPath metadataCache in
  GetMetadataRequestedOptions.thumbnail options = false →
  metadataCacheMap w !! fileSystemId = Some metadataCache →
  if MetadataCache.directoryExists cache && MetadataCache.fileExists cache then
    ∃ metadata,
      MetadataCache.metadata cache = Some metadata
      ∧ onGetMetadataRequested options w
        = (Ok [canonicalizedMetadata metadata (GetMetadataRequestedOptions.as_object options)], w)
  else
    ∀ client, webDAVClientMap w !! fileSystemId = Some client →
      onGetMetadataRequested options w
      = (match (stat client entryPath (env w)).1 with
         | Ok st => Ok [canonicalizedMetadata (fromStat st)
                          (GetMetadataRequestedOptions.as_object options)]
         | Throw e => Throw e
         end,
         with_call (StatCall client entryPath) (stat client entryPath (env w)).2 w).
Proof.
  intros fileSystemId entryPath cache Hthumbnail Hcache.
  destruct (MetadataCache.directoryExists cache && MetadataCache.fileExists cache) eqn:Hflags.
  - pose proof Hflags as Hboth. apply andb_true_iff in Hboth as [_ Hentry].
    destruct (MetadataCache_get_entry _ _ Hentry) as (metadata & Hm & _).
    exists metadata. split; [exact Hm |].
    now apply (onGetMetadataRequested_hit options w metadataCache).
  - intros client Hclient.
    now apply (onGetMetadataRequested_miss options w metadataCache).
Qed.

Lemma getMetadata_from_cache_or_stat_witness :
  ∃ metadata,
    MetadataCache.metadata (MetadataCache.get "/a.txt" warm_cache) = Some metadata
    ∧ onGetMetadataRequested wants_a_txt warm_alice
      = (Ok [canonicalizedMetadata metadata
               (GetMetadataRequestedOptions.as_object wants_a_txt)], warm_alice).
Proof.
  exact (getMetadata_from_cache_or_stat wants_a_txt warm_alice warm_cache eq_refl eq_refl).
Defined.

(** ** Cache eviction (C2) *)

Tactic Notation "fields" :=
  cbn [webDAVClientMap openedFilesMap metadataCacheMap mountedCredentials env calls
       with_webDAVClientMap with_openedFilesMap with_metadataCacheMap
       with_mountedCredentials with_call with_env fst snd].
Tactic Notation "fields" "in" "*" :=
  cbn [webDAVClientMap openedFilesMap metadataCacheMap mountedCredentials env calls
       with_webDAVClientMap with_openedFilesMap with_metadataCacheMap
       with_mountedCredentials with_call with_env fst snd] in *.








(** ** Resuming mounts (C7) *)

Lemma for_of_app {E A} (xs ys : list A) (body : A → M E unit) (w : World E) :
  for_of (xs ++ ys)%list body w = bind (for_of xs body) (fun _ => for_of ys body) w.
Proof.
  revert w. induction xs as [|x xs IH]; intros w; cbn [for_of app].
  - reflexivity.
  - unfold bind. destruct (body x w) as [[[]|e] w1]; [|reflexivity].
    rewrite IH. reflexivity.
Qed.

Lemma Props_values_app {V} (a b : list (string * V)) :
  Props.values (a ++ b)%list = (Props.values a ++ Props.values b)%list.
Proof. unfold Props.values. apply fmap_app. Qed.

(** C7, as the code has it.  [resumeMounts] resumes the persisted records
    in their order and stops at the first record whose resumption fails:
    it ends with that failure, in the state the failing record left, and
    attempts none of the records after it. *)
Theorem resumeMounts_stops_at_first_failure {E} `{Collaborators E}
    (w w1 w2 : World E) (before after : list (string * MountOptions))
    (fileSystemId : string) (failing : MountOptions) (e : Exn) :
  mountedCredentials w = Some (before ++ (fileSystemId, failing) :: after)%list →
  for_of (Props.values before) resumeMount w = (Ok tt, w1) →
  resumeMount failing w1 = (Throw e, w2) →
  resumeMounts w = (Throw e, w2).
Proof.
  intros Hstored Hbefore Hfail.
  unfold resumeMounts, getMountedCredentials.
  unfold bind at 1 2, gets, ret. rewrite Hstored. cbn [from_option id].
  rewrite Props_values_app, for_of_app.
  rewrite (bind_ok _ _ _ _ _ Hbefore).
  cbn [Props.values fmap list_fmap snd for_of].
  now rewrite (bind_throw _ _ _ _ _ Hfail).
Qed.

Lemma resumeMounts_stops_at_first_failure_witness :
  resumeMounts restarted = (Throw (Cloud.status "401"), (resumeMount mallory restarted).2).
Proof.
  apply (resumeMounts_stops_at_first_failure restarted restarted
           (resumeMount mallory restarted).2 [] [(alice_fs, alice)] mallory_fs mallory).
  - reflexivity.
  - reflexivity.
  - vm_compute. reflexivity.
Defined.

(** C7, as the spec has it, fails: alice's record resumes fine on its own,
    but behind a record the server rejects it is never resumed. *)
Lemma failed_record_blocks_later_records :
  (resumeMount alice restarted).1 = Ok tt
  ∧ (resumeMounts restarted).1 = Throw (Cloud.status "401")
  ∧ webDAVClientMap (resumeMounts restarted).2 !! alice_fs = None
  ∧ (alice_fs ∉ Cloud.mounted (env (resumeMounts restarted).2))
  ∧ calls (resumeMounts restarted).2
    = [GetDirectoryContents (WebDAV.createClient (url mallory) (username mallory)
                               (password mallory)) "/"].
Proof.
  repeat split; try (vm_compute; reflexivity).
  intros Hin. apply (bool_decide_pack _) in Hin. vm_compute in Hin. exact Hin.
Qed.

(** ** Unmounting (C8) *)

(** [onUnmountRequested] deletes one key of [#openedFilesMap], the file
    system id. *)
Lemma onUnmountRequested_openedFiles {E} `{Collaborators E}
    (fileSystemId : string) (w w' : World E) :
  onUnmountRequested fileSystemId w = (Ok tt, w') →
  openedFilesMap w' = delete fileSystemId (openedFilesMap w).
Proof.
  intros Hok. unfold onUnmountRequested, removeMountedCredential in Hok.
  unwind Hok. fields in *.
  destruct (mountedCredentials _) as [stored|] in Hok.
  - apply modify_inv in Hok as ->. reflexivity.
  - unfold ret in Hok. injection Hok as <-. reflexivity.
Qed.

(** C8 at a failing input.  After mounting, opening [/a.txt] under request
    7 and unmounting, the host, the client, the cache and the persisted
    record are gone, and the open handle of request 7 is still there:
    handles are stored under their request id, and the unmount deletes the
    key of the file system id. *)
Theorem unmount_keeps_open_handles :
  let opened :=
    bind (mount alice) (fun _ => onOpenFileRequested 7 "/a.txt" "READ") (initial Cloud.example) in
  let after := onUnmountRequested alice_fs opened.2 in
  opened.1 = Ok tt
  ∧ after.1 = Ok tt
  ∧ (alice_fs ∉ Cloud.mounted (env after.2))
  ∧ webDAVClientMap after.2 !! alice_fs = None
  ∧ metadataCacheMap after.2 !! alice_fs = None
  ∧ mountedCredentials after.2 = Some []
  ∧ openedFilesMap after.2 !! String_ 7 = Some (Handle "/a.txt" "READ" "uuid-0").
Proof.
  repeat split; try (vm_compute; reflexivity).
  intros Hin. apply (bool_decide_pack _) in Hin. vm_compute in Hin. exact Hin.
Qed.

(** ** Opening for write (C4) *)

(** C4 at every input.  An open request with mode WRITE gets its uuid and
    then throws on the unbound [fileSystemId]: no staging container is
    asked for, no handle is registered. *)
Theorem open_for_write_throws {E} `{Collaborators E}
    (requestId : N) (filePath : string) (w : World E) :
  onOpenFileRequested requestId filePath "WRITE" w
  = (Throw (ReferenceError "fileSystemId"), with_env (uuidv1 (env w)).2 w).
Proof.
  unfold onOpenFileRequested, new_uuid. run.
  destruct (uuidv1 (env w)) as [uuid e]. reflexivity.
Qed.

(** ** Truncating (C6) *)

(** The calls a truncate makes when the download succeeds: the upload gets
    the sliced buffer where the path belongs, and no body. *)
Lemma onTruncateRequested_calls {E} `{Collaborators E}
    (fileSystemId filePath : string) (length : N) (w : World E)
    (client : WebDAV.Client) (buffer : list Byte.byte) (e : E) :
  webDAVClientMap w !! fileSystemId = Some client →
  getFileContents client filePath (env w) = (Ok buffer, e) →
  calls (onTruncateRequested fileSystemId filePath length w).2
  = (calls w ++ [GetFileContents client filePath;
                 PutFileContents client (VBuffer (buffer_slice0 buffer length)) VUndefined])%list.
Proof.
  intros Hclient Hget. unfold onTruncateRequested. run.
  rewrite Hclient, Hget. fields.
  destruct (putFileContents _ _ _ _) as [r e']. fields.
  now rewrite <- app_assoc.
Qed.

(** C6 at a failing input.  Truncating the four-byte [/a.txt] to two bytes
    downloads it and then calls [putFileContents] with the two bytes as its
    path argument and nothing to upload; [/a.txt] keeps its four bytes. *)
Theorem truncate_does_not_reupload :
  let after := onTruncateRequested alice_fs "/a.txt" 2 mounted_alice in
  calls after.2
  = (calls mounted_alice
       ++ [GetFileContents alice_client "/a.txt";
           PutFileContents alice_client (VBuffer ["a"; "b"]%byte) VUndefined])%list
  ∧ Cloud.resources (env after.2) !! "/a.txt" = Some (Cloud.File ["a"; "b"; "c"; "d"]%byte).
Proof.
  split.
  - apply (onTruncateRequested_calls alice_fs "/a.txt" 2 mounted_alice alice_client
             ["a"; "b"; "c"; "d"]%byte (env mounted_alice));
      vm_compute; reflexivity.
  - vm_compute. reflexivity.
Qed.

(** ** The chunked upload (C1) *)

Lemma strip_prefix_app (p s : string) : Cloud.strip_prefix p (p ++ s) = Some s.
Proof.
  induction p as [|a p IH]; [now destruct s |].
  rewrite string_app_cons. cbn. now rewrite Ascii.eqb_refl.
Qed.

Lemma strip_prefix_Some (p s rest : string) :
  Cloud.strip_prefix p s = Some rest → s = p ++ rest.
Proof.
  revert s. induction p as [|a p IH]; intros s; cbn.
  - destruct s; intros [= <-]; reflexivity.
  - destruct s as [|b s]; [discriminate |].
    destruct (Ascii.eqb_spec a b) as [->|]; [|discriminate].
    intros Hrest. rewrite string_app_cons. f_equal. now apply IH.
Qed.

Lemma strip_suffix_app (q front : string) : Cloud.strip_suffix q (front ++ q) = Some front.
Proof.
  induction front as [|a front IH].
  - change ("" ++ q) with q.
    destruct q; cbn [Cloud.strip_suffix]; now rewrite String.eqb_refl.
  - rewrite string_app_cons. cbn [Cloud.strip_suffix].
    destruct (String.eqb_spec (String a (front ++ q)) q) as [Heq|_].
    + apply (f_equal String.length) in Heq. cbn in Heq.
      rewrite string_length_app in Heq. lia.
    + fold Cloud.strip_suffix. now rewrite IH.
Qed.

(** A container is not below itself. *)
Lemma below_irrefl (container : string) : Cloud.below container container = false.
Proof.
  unfold Cloud.below. apply bool_decide_eq_false_2. intros [rest Hrest].
  apply strip_prefix_Some in Hrest. apply (f_equal String.length) in Hrest.
  rewrite !string_length_app in Hrest. cbn in Hrest. lia.
Qed.

Lemma below_chunk (container name : string) :
  Cloud.below container ((container ++ "/") ++ name) = true.
Proof.
  unfold Cloud.below. apply bool_decide_eq_true_2. rewrite strip_prefix_app. eauto.
Qed.

Lemma uploadPath_in_container (uuid : string) (offset : N) (data : list Byte.byte) :
  uploadPath (Some uuid) offset data = (("/" ++ uuid) ++ "/") ++ chunkName offset data.
Proof. unfold uploadPath, template. cbn [from_option id]. now rewrite !string_app_assoc. Qed.

#[local] Instance chunk_le_transitive : Transitive Cloud.chunk_le.
Proof. intros a b c. unfold Cloud.chunk_le. apply transitivity. Qed.

#[local] Instance chunk_le_total : Total Cloud.chunk_le.
Proof. intros a b. unfold Cloud.chunk_le. apply total, _. Qed.

Lemma string_lt_le (a b : string) : String.compare a b = Lt → String.le a b.
Proof. unfold String.le, String.leb. now intros ->. Qed.

Lemma string_lt_ne (a b : string) : String.compare a b = Lt → a ≠ b.
Proof. intros Hlt ->. rewrite string_compare_refl in Hlt. discriminate. Qed.

(** Resources that are not chunks of the container contribute nothing. *)
Lemma no_chunks_outside (container : string) (rs : gmap string Cloud.Resource) :
  (∀ path, Cloud.below container path = true → rs !! path = None) →
  omap (Cloud.chunk_of container) (map_to_list rs) = [].
Proof.
  intros Hempty.
  assert (Forall (fun pr => Cloud.chunk_of container pr = None) (map_to_list rs)) as Hall.
  { apply Forall_forall. intros [path r] Hin. apply elem_of_map_to_list in Hin.
    unfold Cloud.chunk_of; cbn. destruct r as [|content]; [reflexivity |].
    destruct (Cloud.strip_prefix (container ++ "/") path) as [name|] eqn:Hname; [|reflexivity].
    rewrite Hempty in Hin; [discriminate |].
    unfold Cloud.below. apply bool_decide_eq_true_2. rewrite Hname. eauto. }
  induction Hall as [|pr l Hpr _ IH]; [reflexivity |].
  cbn [omap list_omap]. now rewrite Hpr.
Qed.

(** Three chunk objects in an otherwise empty container are listed in the
    order of their names, whatever the order they were stored in. *)
Lemma chunks_of_three (container : string) (rs : gmap string Cloud.Resource)
    (n1 n2 n3 : string) (d1 d2 d3 : list Byte.byte) :
  (∀ path, Cloud.below container path = true → rs !! path = None) →
  String.compare n1 n2 = Lt → String.compare n2 n3 = Lt →
  Cloud.chunks container
    (<[(container ++ "/") ++ n1 := Cloud.File d1]>
       (<[(container ++ "/") ++ n2 := Cloud.File d2]>
          (<[(container ++ "/") ++ n3 := Cloud.File d3]> rs)))
  = [(n1, d1); (n2, d2); (n3, d3)].
Proof.
  intros Hempty H12 H23.
  assert (String.compare n1 n3 = Lt) as H13.
  { pose proof (string_lt_le _ _ H12) as Hle12. pose proof (string_lt_le _ _ H23) as Hle23.
    destruct (String.compare n1 n3) eqn:Hc; [| reflexivity |].
    - apply String.compare_eq_iff in Hc as ->.
      pose proof (anti_symm String.le _ _ Hle12 Hle23) as ->.
      rewrite string_compare_refl in H12. discriminate.
    - assert (String.le n1 n3) as Hle13 by (etrans; eassumption).
      unfold String.le, String.leb in Hle13. rewrite Hc in Hle13. destruct Hle13. }
  assert (∀ a b : string, a ≠ b → (container ++ "/") ++ a ≠ (container ++ "/") ++ b) as Hkeys.
  { intros a b Hne Heq. apply Hne. now apply (inj (String.app (container ++ "/"))) in Heq. }
  pose proof (string_lt_ne _ _ H12) as Hne12.
  pose proof (string_lt_ne _ _ H23) as Hne23.
  pose proof (string_lt_ne _ _ H13) as Hne13.
  assert (omap (Cloud.chunk_of container)
            (map_to_list
               (<[(container ++ "/") ++ n1 := Cloud.File d1]>
                  (<[(container ++ "/") ++ n2 := Cloud.File d2]>
                     (<[(container ++ "/") ++ n3 := Cloud.File d3]> rs))))
          ≡ₚ [(n1, d1); (n2, d2); (n3, d3)]) as Hperm.
  { rewrite map_to_list_insert.
    2:{ rewrite !lookup_insert_ne by auto. apply Hempty, below_chunk. }
    rewrite map_to_list_insert.
    2:{ rewrite !lookup_insert_ne by auto. apply Hempty, below_chunk. }
    rewrite map_to_list_insert by apply Hempty, below_chunk.
    cbn [omap list_omap]. unfold Cloud.chunk_of at 1 2 3. cbn [fst snd].
    rewrite !strip_prefix_app. cbn [fmap option_fmap option_map].
    now rewrite no_chunks_outside. }
  unfold Cloud.chunks.
  apply (Sorted_unique_strong Cloud.chunk_le).
  - intros x1 x2 Hx1 Hx2 Hle Hge.
    rewrite merge_sort_Permutation, Hperm in Hx1.
    assert (x1.1 = x2.1) as Hname by (apply (anti_symm String.le); assumption).
    repeat (apply elem_of_cons in Hx1 as [->|Hx1]);
      try (now apply elem_of_nil in Hx1);
      repeat (apply elem_of_cons in Hx2 as [->|Hx2]);
      try (now apply elem_of_nil in Hx2);
      cbn in Hname; congruence.
  - apply Sorted_merge_sort, _.
  - repeat constructor; now apply string_lt_le.
  - now rewrite merge_sort_Permutation.
Qed.

Lemma request_authorised {A} (client : WebDAV.Client) (answer : Cloud.t → Result A * Cloud.t)
    (e : Cloud.t) :
  Cloud.authorised client e = true → Cloud.request client answer e = answer e.
Proof.
  intros Hauth. unfold Cloud.request. rewrite Hauth.
  unfold Cloud.authorised in Hauth. apply andb_true_iff in Hauth as [-> _]. reflexivity.
Qed.

(** One write on an open handle stores its chunk object in the staging
    container. *)
Lemma onWriteFileRequested_stages (w : World Cloud.t) (fileSystemId : string)
    (client : WebDAV.Client) (openRequestId : N) (filePath mode uuid : string)
    (offset : N) (data : list Byte.byte) :
  webDAVClientMap w !! fileSystemId = Some client →
  Cloud.authorised client (env w) = true →
  openedFilesMap w !! String_ openRequestId = Some (Handle filePath mode uuid) →
  Cloud.resources (env w) !! uploadPath (Some uuid) offset data ≠ Some Cloud.Collection →
  onWriteFileRequested fileSystemId openRequestId offset data w
  = (Ok tt,
     with_call (PutFileContents client (VString (uploadPath (Some uuid) offset data))
                  (VBuffer data))
       (Cloud.with_resources <[uploadPath (Some uuid) offset data := Cloud.File data]> (env w))
       w).
Proof.
  intros Hclient Hauth Hhandle Hfree.
  unfold onWriteFileRequested. run. rewrite Hhandle, Hclient.
  cbn [uuidOf putFileContents Cloud.collaborators].
  rewrite request_authorised by assumption.
  unfold Cloud.do_putFileContents.
  destruct (Cloud.resources (env w) !! uploadPath (Some uuid) offset data) as [[|content]|];
    [contradiction | reflexivity..].
Qed.

(** The resources after a run of writes: every chunk object stored, in the
    order of the writes. *)
Lemma writes_stage (order : list (N * list Byte.byte)) (w : World Cloud.t)
    (fileSystemId : string) (client : WebDAV.Client) (openRequestId : N)
    (filePath mode uuid : string) :
  webDAVClientMap w !! fileSystemId = Some client →
  Cloud.authorised client (env w) = true →
  openedFilesMap w !! String_ openRequestId = Some (Handle filePath mode uuid) →
  (∀ path, Cloud.below ("/" ++ uuid) path = true →
           Cloud.resources (env w) !! path ≠ Some Cloud.Collection) →
  ∃ w',
    writes fileSystemId openRequestId order w = (Ok tt, w')
    ∧ webDAVClientMap w' = webDAVClientMap w
    ∧ openedFilesMap w' = openedFilesMap w
    ∧ env w'
      = Cloud.with_resources
          (fun rs => foldl (fun rs od => <[uploadPath (Some uuid) od.1 od.2 := Cloud.File od.2]> rs)
                           rs order)
          (env w).
Proof.
  revert w. induction order as [|[offset data] order IH]; intros w Hclient Hauth Hhandle Hfiles.
  - exists w. repeat split. now destruct (env w).
  - unfold writes. cbn [for_of].
    erewrite bind_ok.
    2:{ eapply onWriteFileRequested_stages; try eassumption.
        apply Hfiles. rewrite uploadPath_in_container. apply below_chunk. }
    edestruct (IH (with_call (PutFileContents client (VString (uploadPath (Some uuid) offset data))
                                (VBuffer data))
                     (Cloud.with_resources
                        <[uploadPath (Some uuid) offset data := Cloud.File data]> (env w)) w))
      as (w' & Hrun & Hclients & Hopened & Henv); fields; try assumption.
    { intros path Hbelow. cbn [Cloud.with_resources Cloud.resources].
      rewrite lookup_insert. case_decide; [discriminate | now apply Hfiles]. }
    exists w'. split; [exact Hrun |]. split; [exact Hclients |]. split; [exact Hopened |].
    rewrite Henv. reflexivity.
Qed.

(** Closing a write handle moves [.file] of its staging container onto the
    target, which the server answers by assembling the chunks. *)
Lemma onCloseFileRequested_assembles (w : World Cloud.t) (fileSystemId : string)
    (client : WebDAV.Client) (openRequestId : N) (filePath uuid : string) :
  webDAVClientMap w !! fileSystemId = Some client →
  Cloud.authorised client (env w) = true →
  openedFilesMap w !! String_ openRequestId = Some (Handle filePath "WRITE" uuid) →
  Cloud.resources (env w) !! ("/" ++ uuid) = Some Cloud.Collection →
  ∃ w',
    onCloseFileRequested fileSystemId openRequestId w = (Ok tt, w')
    ∧ Cloud.resources (env w') = Cloud.assemble ("/" ++ uuid) filePath (Cloud.resources (env w))
    ∧ openedFilesMap w' = delete (String_ openRequestId) (openedFilesMap w)
    ∧ calls w' = (calls w ++ [MoveFile client ("/" ++ uuid ++ "/.file") filePath])%list.
Proof.
  intros Hclient Hauth Hhandle Hcontainer.
  unfold onCloseFileRequested. run. rewrite Hhandle. cbn beta iota.
  change (String.eqb "WRITE" "WRITE") with true. cbn beta iota.
  rewrite Hclient. cbn [moveFile Cloud.collaborators].
  rewrite request_authorised by assumption.
  unfold Cloud.do_moveFile.
  replace ("/" ++ uuid ++ "/.file") with (("/" ++ uuid) ++ "/.file")
    by now rewrite string_app_assoc.
  rewrite strip_suffix_app, Hcontainer. fields.
  eexists. split; [reflexivity |]. repeat split.
Qed.

Lemma container_ne_chunk (container name : string) : container ≠ (container ++ "/") ++ name.
Proof.
  intros Heq. pose proof (below_chunk container name) as Hbelow.
  rewrite <- Heq, below_irrefl in Hbelow. discriminate.
Qed.

(** Stores to three different keys end in the same map in every order. *)
Lemma staged_in_any_order {V} (rs : gmap string V) (k1 k2 k3 : string) (v1 v2 v3 : V)
    (order : list (string * V)) :
  k1 ≠ k2 → k2 ≠ k3 → k1 ≠ k3 →
  order ≡ₚ [(k1, v1); (k2, v2); (k3, v3)] →
  foldl (fun rs kv => <[kv.1 := kv.2]> rs) rs order
  = <[k1 := v1]> (<[k2 := v2]> (<[k3 := v3]> rs)).
Proof.
  intros H12 H23 H13 Hperm. symmetry in Hperm.
  apply permutations_Permutation in Hperm. cbn in Hperm.
  repeat (apply elem_of_cons in Hperm as [->|Hperm]);
    try (now apply elem_of_nil in Hperm);
    cbn [foldl fst snd]; apply map_eq; intros k;
    rewrite !lookup_insert; repeat case_decide; congruence.
Qed.

(** What the write and close handlers are written to do.  On a state that
    holds a handle of mode WRITE with its staging container created and
    empty on a server of the chunking dialect, writing the chunks at
    [0,100), [100,250) and [250,300) in any order and closing the handle
    succeeds, leaves the target path holding the three chunks joined in
    offset order, and discards the handle.  No request leads to such a
    state: the open that would register the handle throws first. *)
Theorem chunked_write_round_trip (w : World Cloud.t) (fileSystemId : string)
    (client : WebDAV.Client) (openRequestId : N) (filePath uuid : string)
    (chunk1 chunk2 chunk3 : list Byte.byte) (order : list (N * list Byte.byte)) :
  WriteSession w fileSystemId client openRequestId filePath uuid →
  length chunk1 = 100 → length chunk2 = 150 → length chunk3 = 50 →
  order ≡ₚ [(0%N, chunk1); (100%N, chunk2); (250%N, chunk3)] →
  ∃ w',
    bind (writes fileSystemId openRequestId order)
         (fun _ => onCloseFileRequested fileSystemId openRequestId) w
    = (Ok tt, w')
    ∧ Cloud.resources (env w') !! filePath
      = Some (Cloud.File (chunk1 ++ chunk2 ++ chunk3)%list)
    ∧ openedFilesMap w' !! String_ openRequestId = None.
Proof.
  intros [Hclient Hauth Hhandle Hcontainer Hempty] Hlen1 Hlen2 Hlen3 Hperm.
  set (container := "/" ++ uuid) in *.
  set (n1 := chunkName 0 chunk1). set (n2 := chunkName 100 chunk2).
  set (n3 := chunkName 250 chunk3).
  assert (String.compare n1 n2 = Lt) as H12
    by (subst n1 n2; unfold chunkName, byteLength; rewrite Hlen1, Hlen2; reflexivity).
  assert (String.compare n2 n3 = Lt) as H23
    by (subst n2 n3; unfold chunkName, byteLength; rewrite Hlen2, Hlen3; reflexivity).
  assert (String.compare n1 n3 = Lt) as H13
    by (subst n1 n3; unfold chunkName, byteLength; rewrite Hlen1, Hlen3; reflexivity).
  assert (∀ a b : string, a ≠ b → (container ++ "/") ++ a ≠ (container ++ "/") ++ b) as Hkeys.
  { intros a b Hne Heq. apply Hne. now apply (inj (String.app (container ++ "/"))) in Heq. }
  (* the writes *)
  destruct (writes_stage order w fileSystemId client openRequestId filePath "WRITE" uuid)
    as (w1 & Hwrites & Hclients & Hopened & Henv); try assumption.
  { intros path Hbelow. rewrite (Hempty path Hbelow). discriminate. }
  assert (Cloud.resources (env w1)
          = <[(container ++ "/") ++ n1 := Cloud.File chunk1]>
              (<[(container ++ "/") ++ n2 := Cloud.File chunk2]>
                 (<[(container ++ "/") ++ n3 := Cloud.File chunk3]>
                    (Cloud.resources (env w))))) as Hstaged.
  { rewrite Henv. cbn [Cloud.with_resources Cloud.resources].
    rewrite <- (staged_in_any_order _ _ _ _ _ _ _
                  ((fun od => (uploadPath (Some uuid) od.1 od.2, Cloud.File od.2)) <$> order)).
    - rewrite foldl_fmap. reflexivity.
    - apply Hkeys. now apply string_lt_ne.
    - apply Hkeys. now apply string_lt_ne.
    - apply Hkeys. now apply string_lt_ne.
    - rewrite Hperm. cbn [fmap list_fmap fst snd].
      rewrite !uploadPath_in_container. reflexivity. }
  (* the close *)
  destruct (onCloseFileRequested_assembles w1 fileSystemId client openRequestId filePath uuid)
    as (w2 & Hclose & Hassembled & Hclosed & _).
  - now rewrite Hclients.
  - rewrite Henv. exact Hauth.
  - now rewrite Hopened.
  - fold container. rewrite Hstaged.
    rewrite !lookup_insert_ne by apply not_eq_sym, container_ne_chunk. exact Hcontainer.
  - exists w2. split; [| split].
    + rewrite (bind_ok _ _ _ _ _ Hwrites). exact Hclose.
    + rewrite Hassembled. fold container. unfold Cloud.assemble.
      rewrite lookup_insert_eq, Hstaged.
      rewrite (chunks_of_three container _ n1 n2 n3) by assumption.
      cbn. now rewrite app_nil_r.
    + rewrite Hclosed. apply lookup_delete_eq.
Qed.

Lemma writing_alice_session :
  WriteSession writing_alice alice_fs alice_client 1 "/a.txt" "session".
Proof.
  split; try (vm_compute; reflexivity).
  intros path Hbelow.
  destruct (Cloud.resources (env writing_alice) !! path) as [r|] eqn:Hr; [|reflexivity].
  assert (path ∈ dom (Cloud.resources (env writing_alice))) as Hdom
    by (apply elem_of_dom; eauto).
  replace (dom (Cloud.resources (env writing_alice)))
    with ({[ "/"; "/reports"; "/reports/q1.pdf"; "/a.txt"; "/session" ]} : gset string)
    in Hdom by (vm_compute; reflexivity).
  repeat (apply elem_of_union in Hdom as [Hdom|Hdom]);
    apply elem_of_singleton in Hdom; subst path; vm_compute in Hbelow; discriminate.
Qed.

Lemma chunked_write_round_trip_witness :
  ∃ w',
    bind (writes alice_fs 1 [(250%N, repeat "c"%byte 50); (0%N, repeat "a"%byte 100);
                             (100%N, repeat "b"%byte 150)])
         (fun _ => onCloseFileRequested alice_fs 1) writing_alice
    = (Ok tt, w')
    ∧ Cloud.resources (env w') !! "/a.txt"
      = Some (Cloud.File (repeat "a"%byte 100 ++ repeat "b"%byte 150 ++ repeat "c"%byte 50)%list)
    ∧ openedFilesMap w' !! String_ 1 = None.
Proof.
  apply (chunked_write_round_trip writing_alice alice_fs alice_client 1 "/a.txt" "session"
           (repeat "a"%byte 100) (repeat "b"%byte 150) (repeat "c"%byte 50)).
  - exact writing_alice_session.
  - reflexivity.
  - reflexivity.
  - reflexivity.
  - exact (Permutation_cons_append _ _).
Defined.

(** C1, at every input.  A write session cannot start: the open request
    with mode WRITE throws on the unbound [fileSystemId] before it calls the
    server or registers a handle, so every write under that request id, and
    the close, throw a TypeError and leave the state as the open left it.
    No call is made and the server's resources are the ones from before the
    session: the target path never receives the chunks. *)
Theorem write_session_never_starts (fileSystemId filePath : string) (requestId : N)
    (w : World Cloud.t) :
  openedFilesMap w !! String_ requestId = None →
  let opened := onOpenFileRequested requestId filePath "WRITE" w in
  opened.1 = Throw (ReferenceError "fileSystemId")
  ∧ calls opened.2 = calls w
  ∧ openedFilesMap opened.2 = openedFilesMap w
  ∧ Cloud.resources (env opened.2) = Cloud.resources (env w)
  ∧ (∀ (offset : N) (data : list Byte.byte),
        onWriteFileRequested fileSystemId requestId offset data opened.2
        = (Throw (TypeError "Cannot read properties of undefined"), opened.2))
  ∧ onCloseFileRequested fileSystemId requestId opened.2
    = (Throw (TypeError "Cannot read properties of undefined"), opened.2).
Proof.
  intros Hnone. cbv zeta.
  assert (onOpenFileRequested requestId filePath "WRITE" w
          = (Throw (ReferenceError "fileSystemId"), with_env (uuidv1 (env w)).2 w)) as ->.
  { unfold onOpenFileRequested, new_uuid. run.
    destruct (uuidv1 (env w)) as [uuid e]. reflexivity. }
  fields.
  split; [reflexivity |]. split; [reflexivity |]. split; [reflexivity |].
  split; [reflexivity |].
  split; [intros offset data |];
    unfold onCloseFileRequested, onWriteFileRequested; run; fields;
    rewrite Hnone; reflexivity.
Qed.

Lemma write_session_never_starts_witness :
  let opened := onOpenFileRequested 1 "/a.txt" "WRITE" mounted_alice in
  let chunk1 := repeat "a"%byte 100 in
  let chunk2 := repeat "b"%byte 150 in
  let chunk3 := repeat "c"%byte 50 in
  opened.1 = Throw (ReferenceError "fileSystemId")
  ∧ (writes alice_fs 1 [(250%N, chunk3); (0%N, chunk1); (100%N, chunk2)] opened.2).1
    = Throw (TypeError "Cannot read properties of undefined")
  ∧ onCloseFileRequested alice_fs 1 opened.2
    = (Throw (TypeError "Cannot read properties of undefined"), opened.2)
  ∧ Cloud.resources (env opened.2) !! "/a.txt" = Some (Cloud.File ["a"; "b"; "c"; "d"]%byte).
Proof.
  cbv zeta.
  destruct (write_session_never_starts alice_fs "/a.txt" 1 mounted_alice)
    as (Hopen & _ & _ & Hresources & Hwrite & Hclose).
  - vm_compute. reflexivity.
  - split; [exact Hopen |]. split; [| split; [exact Hclose |]].
    + unfold writes. cbn [for_of]. unfold bind. rewrite Hwrite. reflexivity.
    + rewrite Hresources. vm_compute. reflexivity.
Defined.

(** * Further properties of the provider *)

(** ** The width of chunk names *)

Lemma substring_length (n m : nat) (s : string) :
  (n + m ≤ String.length s)%nat → String.length (String.substring n m s) = m.
Proof.
  revert n m. induction s as [|c s IH]; intros [|n] [|m] Hlen; cbn in *;
    try lia; try reflexivity; rewrite ?IH by lia; try reflexivity; apply IH; lia.
Qed.

(** Whatever the index, [paddedIndex] returns fifteen characters, and a
    chunk name thirty-one. *)
Theorem chunk_names_have_fixed_width (offset : N) (data : list Byte.byte) :
  String.length (paddedIndex offset) = 15
  ∧ String.length (chunkName offset data) = 31.
Proof.
  assert (∀ index, String.length (paddedIndex index) = 15) as Hwidth.
  { intros index. unfold paddedIndex, slice.
    rewrite string_length_app. change (String.length "000000000000000") with 15.
    destruct (Z.ltb_spec (- Z.of_nat 15) 0) as [_|]; [|lia].
    rewrite substring_length; [lia |].
    rewrite string_length_app. change (String.length "000000000000000") with 15. lia. }
  split; [apply Hwidth |].
  unfold chunkName. rewrite !string_length_app, !Hwidth. reflexivity.
Qed.

Lemma chunkName_compare (offset1 offset2 : N) (data1 data2 : list Byte.byte) :
  (offset1 + byteLength data1 < 10 ^ 15)%N →
  (offset2 + byteLength data2 < 10 ^ 15)%N →
  String.compare (chunkName offset1 data1) (chunkName offset2 data2)
  = compare_ranges (range offset1 data1) (range offset2 data2).
Proof.
  intros H1 H2. unfold chunkName, compare_ranges, range; cbn [fst snd].
  rewrite string_compare_app by (rewrite !paddedIndex_length; [reflexivity | lia..]).
  rewrite paddedIndex_compare by lia.
  destruct (offset1 ?= offset2)%N; try reflexivity.
  rewrite (string_compare_app "-" "-") by reflexivity.
  cbn [String.compare]. rewrite ascii_compare_refl.
  apply paddedIndex_compare; assumption.
Qed.

(** Two writes of one session that cover different byte ranges, both
    ending below 10^15, are uploaded to different paths: neither replaces
    the other's chunk object. *)
Theorem different_ranges_different_upload_paths
    (uuid : option string) (offset1 offset2 : N) (data1 data2 : list Byte.byte) :
  (offset1 + byteLength data1 < 10 ^ 15)%N →
  (offset2 + byteLength data2 < 10 ^ 15)%N →
  range offset1 data1 ≠ range offset2 data2 →
  uploadPath uuid offset1 data1 ≠ uploadPath uuid offset2 data2.
Proof.
  intros H1 H2 Hranges Hpaths. apply Hranges.
  unfold uploadPath in Hpaths.
  apply (inj (String.app "/")) in Hpaths.
  apply (inj (String.app (template uuid))) in Hpaths.
  apply (inj (String.app "/")) in Hpaths.
  pose proof (chunkName_compare offset1 offset2 data1 data2 H1 H2) as Hcmp.
  rewrite Hpaths, string_compare_refl in Hcmp.
  unfold compare_ranges, range in *; cbn [fst snd] in *.
  destruct (N.compare_spec offset1 offset2) as [->| |]; try discriminate.
  symmetry in Hcmp. apply N.compare_eq_iff in Hcmp. now rewrite Hcmp.
Qed.

Lemma different_ranges_different_upload_paths_witness :
  uploadPath (Some "session") 0 [x00; x01]%byte ≠ uploadPath (Some "session") 2 [x02]%byte.
Proof.
  apply (different_ranges_different_upload_paths (Some "session") 0 2 [x00; x01]%byte [x02]%byte).
  - reflexivity.
  - reflexivity.
  - discriminate.
Defined.

(** ** Composing projections *)

Lemma canonicalizedMetadata_filter (metadata options : Obj) :
  canonicalizedMetadata metadata options
  = filter (fun kv => truthy (prop options kv.1) = true) metadata.
Proof.
  apply map_eq. intros key. unfold canonicalizedMetadata. rewrite canonicalize_fold.
  rewrite map_lookup_filter.
  destruct (metadata !! key) as [v|] eqn:Hv; cbn.
  - rewrite bool_decide_eq_true_2 by (apply elem_of_keys; eauto).
    destruct (truthy (prop options key)) eqn:Ht; cbn.
    + rewrite option_guard_True by done. reflexivity.
    + rewrite option_guard_False by done. reflexivity.
  - now destruct (_ && _).
Qed.

(** Projecting twice by the same options changes nothing more, the order
    of two projections does not matter, and a projection by options that
    flag every field of the record returns the record as it is. *)
Theorem projections_compose (metadata options1 options2 : Obj) :
  canonicalizedMetadata (canonicalizedMetadata metadata options1) options1
  = canonicalizedMetadata metadata options1
  ∧ canonicalizedMetadata (canonicalizedMetadata metadata options1) options2
    = canonicalizedMetadata (canonicalizedMetadata metadata options2) options1
  ∧ ((∀ key, is_Some (metadata !! key) → truthy (prop options1 key) = true) →
     canonicalizedMetadata metadata options1 = metadata).
Proof.
  rewrite !canonicalizedMetadata_filter. repeat split.
  - apply map_eq. intros key. rewrite !map_lookup_filter.
    destruct (metadata !! key) as [v|]; cbn; [|reflexivity].
    destruct (truthy (prop options1 key)) eqn:Ht.
    + rewrite option_guard_True by done. cbn.
      now rewrite option_guard_True by done.
    + now rewrite option_guard_False by done.
  - apply map_eq. intros key. rewrite !map_lookup_filter.
    destruct (metadata !! key) as [v|]; cbn; [|reflexivity].
    destruct (truthy (prop options1 key)) eqn:Ht1, (truthy (prop options2 key)) eqn:Ht2;
      repeat first [ rewrite option_guard_True by done
                   | rewrite option_guard_False by done
                   | progress cbn ]; reflexivity.
  - intros Hall. apply map_eq. intros key. rewrite map_lookup_filter.
    destruct (metadata !! key) as [v|] eqn:Hv; cbn; [|reflexivity].
    rewrite option_guard_True; [reflexivity |]. apply Hall. eauto.
Qed.

(** ** The persisted records *)

Lemma propertyOf_assign_eq {V} (key : string) (v : V) (o : list (string * V)) :
  propertyOf key (Props.assign key v o) = Some v.
Proof.
  induction o as [|[k x] o IH]; cbn.
  - now rewrite String.eqb_refl.
  - destruct (String.eqb k key) eqn:Hk; cbn; rewrite Hk; [reflexivity | exact IH].
Qed.

Lemma propertyOf_assign_ne {V} (key other : string) (v : V) (o : list (string * V)) :
  other ≠ key → propertyOf other (Props.assign key v o) = propertyOf other o.
Proof.
  intros Hne. induction o as [|[k x] o IH]; cbn.
  - apply String.eqb_neq in Hne. rewrite String.eqb_sym. now rewrite Hne.
  - destruct (String.eqb_spec k key) as [->|Hk]; cbn.
    + destruct (String.eqb_spec key other) as [->|_]; [contradiction | reflexivity].
    + now rewrite IH.
Qed.

Lemma assign_ids {V} (key : string) (v : V) (o : list (string * V)) :
  (Props.assign key v o).*1 = if bool_decide (key ∈ o.*1) then o.*1 else (o.*1 ++ [key])%list.
Proof.
  induction o as [|[k x] o IH]; cbn; [reflexivity |].
  destruct (String.eqb_spec k key) as [->|Hk]; cbn.
  - rewrite bool_decide_eq_true_2 by apply list_elem_of_here. reflexivity.
  - rewrite IH. destruct (decide (key ∈ o.*1)) as [Hin|Hout].
    + rewrite !bool_decide_eq_true_2 by (try apply list_elem_of_further; assumption).
      reflexivity.
    + rewrite !bool_decide_eq_false_2; [reflexivity | | assumption].
      intros [?|?]%elem_of_cons; congruence.
Qed.

Lemma propertyOf_delete_eq {V} (key : string) (o : list (string * V)) :
  propertyOf key (Props.delete key o) = None.
Proof.
  unfold Props.delete. induction o as [|[k x] o IH]; [reflexivity |].
  rewrite filter_cons. cbn [fst]. destruct (decide (k ≠ key)) as [Hk|Hk]; [|exact IH].
  cbn. apply String.eqb_neq in Hk. now rewrite Hk.
Qed.

Lemma propertyOf_delete_ne {V} (key other : string) (o : list (string * V)) :
  other ≠ key → propertyOf other (Props.delete key o) = propertyOf other o.
Proof.
  intros Hne. unfold Props.delete. induction o as [|[k x] o IH]; [reflexivity |].
  rewrite filter_cons. cbn [fst]. destruct (decide (k ≠ key)) as [Hk|Hk]; cbn.
  - now rewrite IH.
  - apply dec_stable in Hk. subst k.
    destruct (String.eqb_spec key other) as [->|_]; [contradiction | exact IH].
Qed.

Lemma propertyOf_None {V} (key : string) (o : list (string * V)) :
  propertyOf key o = None ↔ key ∉ o.*1.
Proof.
  induction o as [|[k x] o IH]; cbn.
  - split; [intros _; apply not_elem_of_nil | reflexivity].
  - rewrite not_elem_of_cons. destruct (String.eqb_spec k key) as [->|Hk].
    + split; [discriminate | intros [? _]; contradiction].
    + rewrite IH. split; [intros; split; congruence | intros [_ ?]; assumption].
Qed.

Lemma delete_assign_fresh {V} (key : string) (v : V) (o : list (string * V)) :
  key ∉ o.*1 → Props.delete key (Props.assign key v o) = o.
Proof.
  unfold Props.delete. induction o as [|[k x] o IH]; cbn [Props.assign]; intros Hout.
  - rewrite filter_cons_False; [reflexivity |]. cbn. intros Hne. now apply Hne.
  - rewrite fmap_cons in Hout. cbn [fst] in Hout.
    apply not_elem_of_cons in Hout as [Hne Hout].
    destruct (String.eqb_spec k key) as [->|Hk]; [contradiction |].
    rewrite filter_cons_True by (cbn; congruence).
    now rewrite IH.
Qed.

(** [storeMountedCredential] always succeeds; afterwards the record is
    persisted under its id, at most once (an id that was there keeps its
    place and gets the new record, a new id goes last), every other id keeps
    its record, and [getMountedCredentials] lists the record. *)
Theorem storing_a_credential {E} `{Collaborators E}
    (fileSystemId : string) (credential : MountOptions) (w : World E) :
  let w' := (storeMountedCredential fileSystemId credential w).2 in
  (storeMountedCredential fileSystemId credential w).1 = Ok tt
  ∧ stored fileSystemId w' = Some credential
  ∧ (∀ other, other ≠ fileSystemId → stored other w' = stored other w)
  ∧ storedIds w'
    = (if bool_decide (fileSystemId ∈ storedIds w) then storedIds w
       else storedIds w ++ [fileSystemId])%list
  ∧ (∃ credentials, (getMountedCredentials w').1 = Ok credentials ∧ credential ∈ credentials)
  ∧ webDAVClientMap w' = webDAVClientMap w ∧ calls w' = calls w.
Proof.
  unfold storeMountedCredential, getMountedCredentials, stored, storedIds. run. fields.
  cbn [from_option id].
  split; [reflexivity |]. split; [apply propertyOf_assign_eq |].
  split; [intros other Hne; now apply propertyOf_assign_ne |].
  split; [apply assign_ids |]. split; [|split; reflexivity].
  eexists. split; [reflexivity |].
  unfold Props.values. apply list_elem_of_fmap.
  exists (fileSystemId, credential). split; [reflexivity |].
  set (o := from_option id [] (mountedCredentials w)). clearbody o.
  induction o as [|[k x] o IH]; cbn.
  - apply list_elem_of_here.
  - destruct (String.eqb_spec k fileSystemId) as [->|_].
    + apply list_elem_of_here.
    + apply list_elem_of_further, IH.
Qed.

(** [removeMountedCredential] always succeeds; afterwards nothing is
    persisted under the id and every other id keeps its record.  Storage
    that was never written stays unwritten. *)
Theorem removing_a_credential {E} `{Collaborators E} (fileSystemId : string) (w : World E) :
  let w' := (removeMountedCredential fileSystemId w).2 in
  (removeMountedCredential fileSystemId w).1 = Ok tt
  ∧ stored fileSystemId w' = None
  ∧ (∀ other, other ≠ fileSystemId → stored other w' = stored other w)
  ∧ (mountedCredentials w = None → w' = w).
Proof.
  unfold removeMountedCredential, stored. run.
  destruct (mountedCredentials w) as [o|] eqn:Ho; run; fields; cbn [from_option id].
  - split; [reflexivity |]. split; [apply propertyOf_delete_eq |].
    split; [intros other Hne; now apply propertyOf_delete_ne | discriminate].
  - rewrite Ho. cbn [from_option id]. repeat split; reflexivity.
Qed.

(** Storing a record under an id that had none and removing it again
    leaves the other records exactly as they were, in their order; storage
    that was never written ends as an empty object. *)
Theorem store_then_remove {E} `{Collaborators E}
    (fileSystemId : string) (credential : MountOptions) (w : World E) :
  stored fileSystemId w = None →
  bind (storeMountedCredential fileSystemId credential)
       (fun _ => removeMountedCredential fileSystemId) w
  = (Ok tt, with_mountedCredentials (Some (default [] (mountedCredentials w))) w).
Proof.
  unfold stored. intros Hfresh%propertyOf_None.
  unfold storeMountedCredential, removeMountedCredential. run. fields.
  unfold with_mountedCredentials; fields. now rewrite delete_assign_fresh.
Qed.

Lemma store_then_remove_witness :
  bind (storeMountedCredential mallory_fs mallory)
       (fun _ => removeMountedCredential mallory_fs) mounted_alice
  = (Ok tt, with_mountedCredentials (Some (default [] (mountedCredentials mounted_alice)))
              mounted_alice).
Proof.
  apply (store_then_remove mallory_fs mallory mounted_alice). vm_compute. reflexivity.
Defined.

(** ** Mounting *)

(** Mounting a configuration whose id the host already knows asks the
    host and does nothing else: no client is created or called, and the
    provider's state stays as it is. *)
Theorem mount_of_a_mounted_file_system {E} `{Collaborators E}
    (options : MountOptions) (w : World E) :
  fileSystemProvider_get (fileSystemIdOf options) (env w) = true →
  mount options w
  = (Ok tt, with_call (FileSystemProviderGet (fileSystemIdOf options)) (env w) w).
Proof.
  intros Hmounted. destruct options as [name url username password].
  unfold fileSystemIdOf in Hmounted. cbn in Hmounted.
  unfold mount, isMounted, bind at 1. now rewrite Hmounted.
Qed.

Lemma mount_of_a_mounted_file_system_witness :
  mount alice mounted_alice
  = (Ok tt, with_call (FileSystemProviderGet (fileSystemIdOf alice)) (env mounted_alice)
              mounted_alice).
Proof.
  apply (mount_of_a_mounted_file_system alice mounted_alice). vm_compute. reflexivity.
Defined.

(** A mount that fails (the connection check or the host's registration
    was refused) registers nothing: no client, no cache, no persisted
    record. *)
Theorem failed_mount_registers_nothing {E} `{Collaborators E}
    (options : MountOptions) (w w' : World E) (e : Exn) :
  mount options w = (Throw e, w') → untouched w w'.
Proof.
  destruct options as [name url username password].
  unfold mount, isMounted, storeMountedCredential. unfold bind at 1.
  destruct (fileSystemProvider_get _ _); [discriminate |].
  run. fields.
  destruct (getDirectoryContents _ _ _) as [[stats|err] e1]; fields.
  - destruct (fileSystemProvider_mount _ _ _ _) as [[[]|err] e2]; fields.
    + discriminate.
    + intros [= _ <-]. repeat split.
  - intros [= _ <-]. repeat split.
Qed.

Lemma failed_mount_registers_nothing_witness :
  untouched (initial Cloud.example) (mount mallory (initial Cloud.example)).2.
Proof.
  apply (failed_mount_registers_nothing mallory (initial Cloud.example) _
           (Cloud.status "401")).
  vm_compute. reflexivity.
Defined.

(** A mount of a configuration the host does not know yet, when it
    succeeds, has checked the connection with a listing of [/], registered
    the id with the host as writable under the given name, and leaves the
    client and a fresh cache under the id, the configuration persisted under
    it, and every other mount and every open handle as they were. *)
Theorem successful_mount_registers {E} `{Collaborators E}
    (options : MountOptions) (w w' : World E) :
  let fileSystemId := fileSystemIdOf options in
  let client := WebDAV.createClient (url options) (username options) (password options) in
  fileSystemProvider_get fileSystemId (env w) = false →
  mount options w = (Ok tt, w') →
  webDAVClientMap w' = <[fileSystemId := client]> (webDAVClientMap w)
  ∧ metadataCacheMap w' = <[fileSystemId := MetadataCache.empty]> (metadataCacheMap w)
  ∧ openedFilesMap w' = openedFilesMap w
  ∧ stored fileSystemId w' = Some options
  ∧ (∀ other, other ≠ fileSystemId → stored other w' = stored other w)
  ∧ calls w'
    = (calls w ++ [FileSystemProviderGet fileSystemId;
                   GetDirectoryContents client "/";
                   FileSystemProviderMount fileSystemId (name options) true])%list.
Proof.
  destruct options as [displayName address user secret].
  unfold fileSystemIdOf; cbn [url username password name]. intros Hnew.
  set (fileSystemId := createFileSystemID address user) in *.
  set (client := WebDAV.createClient address user secret).
  unfold mount, isMounted, storeMountedCredential. unfold bind at 1.
  fold fileSystemId. rewrite Hnew.
  run. fields. fold client.
  destruct (getDirectoryContents _ _ _) as [[stats|err] e1]; fields; [|discriminate].
  destruct (fileSystemProvider_mount _ _ _ _) as [[[]|err] e2]; fields; [|discriminate].
  intros [= <-]. unfold stored. fields. cbn [from_option id].
  split; [reflexivity |]. split; [reflexivity |]. split; [reflexivity |].
  split; [apply propertyOf_assign_eq |].
  split; [intros other Hne; now apply propertyOf_assign_ne |].
  now rewrite <- !app_assoc.
Qed.

Lemma successful_mount_registers_witness :
  webDAVClientMap mounted_alice = <[alice_fs := alice_client]> ∅
  ∧ metadataCacheMap mounted_alice = <[alice_fs := MetadataCache.empty]> ∅
  ∧ openedFilesMap mounted_alice = ∅
  ∧ stored alice_fs mounted_alice = Some alice
  ∧ (∀ other, other ≠ alice_fs → stored other mounted_alice = None)
  ∧ calls mounted_alice
    = [FileSystemProviderGet alice_fs; GetDirectoryContents alice_client "/";
       FileSystemProviderMount alice_fs "Docs" true].
Proof.
  apply (successful_mount_registers alice (initial Cloud.example) mounted_alice).
  - vm_compute. reflexivity.
  - vm_compute. reflexivity.
Defined.

(** ** Unmounting *)

(** An unmount that the host accepts makes one call, the host's, and
    drops the client, the cache and the persisted record of the id; the
    clients, caches and records of other ids stay. *)
Theorem unmount_discards_the_mount {E} `{Collaborators E}
    (fileSystemId : string) (w w' : World E) :
  onUnmountRequested fileSystemId w = (Ok tt, w') →
  webDAVClientMap w' = delete fileSystemId (webDAVClientMap w)
  ∧ metadataCacheMap w' = delete fileSystemId (metadataCacheMap w)
  ∧ stored fileSystemId w' = None
  ∧ (∀ other, other ≠ fileSystemId → stored other w' = stored other w)
  ∧ calls w' = (calls w ++ [FileSystemProviderUnmount fileSystemId])%list.
Proof.
  unfold onUnmountRequested, removeMountedCredential, stored. run.
  destruct (fileSystemProvider_unmount _ _) as [[[]|err] e1]; fields; [|discriminate].
  destruct (mountedCredentials w) as [o|] eqn:Ho; run; fields; intros [= <-]; fields;
    cbn [from_option id]; rewrite ?Ho; cbn [from_option id].
  - split; [reflexivity |]. split; [reflexivity |]. split; [apply propertyOf_delete_eq |].
    split; [intros other Hne; now apply propertyOf_delete_ne | reflexivity].
  - repeat split; reflexivity.
Qed.

Lemma unmount_discards_the_mount_witness :
  let w' := (onUnmountRequested alice_fs mounted_alice).2 in
  webDAVClientMap w' = delete alice_fs (webDAVClientMap mounted_alice)
  ∧ metadataCacheMap w' = delete alice_fs (metadataCacheMap mounted_alice)
  ∧ stored alice_fs w' = None
  ∧ (∀ other, other ≠ alice_fs → stored other w' = stored other mounted_alice)
  ∧ calls w' = (calls mounted_alice ++ [FileSystemProviderUnmount alice_fs])%list.
Proof.
  apply (unmount_discards_the_mount alice_fs mounted_alice
           (onUnmountRequested alice_fs mounted_alice).2).
  vm_compute. reflexivity.
Defined.

(** An unmount that the host refuses discards nothing: the client, the
    cache, the handles and the persisted record are all still there. *)
Theorem refused_unmount_keeps_the_mount {E} `{Collaborators E}
    (fileSystemId : string) (w w' : World E) (e : Exn) :
  onUnmountRequested fileSystemId w = (Throw e, w') → untouched w w'.
Proof.
  unfold onUnmountRequested, removeMountedCredential. run.
  destruct (fileSystemProvider_unmount _ _) as [[[]|err] e1]; fields.
  - destruct (mountedCredentials w); run; discriminate.
  - intros [= _ <-]. repeat split.
Qed.

Lemma refused_unmount_keeps_the_mount_witness :
  (onUnmountRequested alice_fs resumed_alice).1 = Throw (Error "NOT_FOUND")
  ∧ webDAVClientMap resumed_alice !! alice_fs = Some alice_client
  ∧ cached alice_fs "/reports" resumed_alice = true
  ∧ openedFilesMap resumed_alice !! String_ 7 = Some (Handle "/a.txt" "READ" "uuid-0")
  ∧ stored alice_fs resumed_alice = Some alice
  ∧ untouched resumed_alice (onUnmountRequested alice_fs resumed_alice).2.
Proof.
  do 5 (split; [vm_compute; reflexivity |]).
  apply (refused_unmount_keeps_the_mount alice_fs resumed_alice _ (Error "NOT_FOUND")).
  vm_compute. reflexivity.
Defined.

(** ** Resuming *)

(** Resuming one persisted record registers everything or nothing: when
    it returns, the id has its client, the [{}] slot in the handle table and
    a fresh cache; when it throws, the provider's state is as before.  The
    persisted records are never written. *)
Theorem resumeMount_all_or_nothing {E} `{Collaborators E}
    (credential : MountOptions) (w : World E) :
  let fileSystemId := fileSystemIdOf credential in
  let client :=
    WebDAV.createClient (url credential) (username credential) (password credential) in
  match resumeMount credential w with
  | (Ok _, w') =>
      webDAVClientMap w' = <[fileSystemId := client]> (webDAVClientMap w)
      ∧ openedFilesMap w' = <[fileSystemId := EmptyObject]> (openedFilesMap w)
      ∧ metadataCacheMap w' = <[fileSystemId := MetadataCache.empty]> (metadataCacheMap w)
      ∧ mountedCredentials w' = mountedCredentials w
  | (Throw _, w') => untouched w w'
  end.
Proof.
  destruct credential as [displayName address user secret].
  unfold fileSystemIdOf, resumeMount; cbn [url username password name]. run.
  destruct (getDirectoryContents _ _ _) as [[stats|err] e1]; fields.
  - destruct (fileSystemProvider_mount _ _ _ _) as [[[]|err] e2]; fields; repeat split.
  - repeat split.
Qed.

Lemma for_of_modifies {E A} (l : list A) (body : A → M E unit) (step : A → World E → World E)
    (w : World E) :
  (∀ x w, body x w = (Ok tt, step x w)) →
  for_of l body w = (Ok tt, foldl (fun w x => step x w) w l).
Proof.
  intros Hbody. revert w. induction l as [|x l IH]; intros w; cbn [for_of foldl].
  - reflexivity.
  - unfold bind. rewrite Hbody. apply IH.
Qed.

(** [#resume], which the constructor runs, cannot fail and calls neither
    the host nor a server: it only gives every persisted record's id a
    client and a fresh cache, and leaves the handle table and the persisted
    records alone. *)
Theorem resume_makes_no_call {E} `{Collaborators E} (w : World E) :
  ∃ w',
    resume w = (Ok tt, w')
    ∧ calls w' = calls w ∧ env w' = env w
    ∧ openedFilesMap w' = openedFilesMap w
    ∧ mountedCredentials w' = mountedCredentials w
    ∧ ∀ credential,
        credential ∈ Props.values (default [] (mountedCredentials w)) →
        is_Some (webDAVClientMap w' !! fileSystemIdOf credential)
        ∧ metadataCacheMap w' !! fileSystemIdOf credential = Some MetadataCache.empty.
Proof.
  set (step := fun (c : MountOptions) (w : World E) =>
         with_metadataCacheMap <[fileSystemIdOf c := MetadataCache.empty]>
           (with_webDAVClientMap
              <[fileSystemIdOf c := WebDAV.createClient (url c) (username c) (password c)]> w)).
  set (l := Props.values (default [] (mountedCredentials w))).
  exists (foldl (fun w c => step c w) w l).
  split.
  { unfold resume, getMountedCredentials. run. fold l.
    apply for_of_modifies. intros [displayName address user secret] w0. reflexivity. }
  clearbody l.
  assert (∀ l w,
            let w' := foldl (fun w c => step c w) w l in
            calls w' = calls w ∧ env w' = env w
            ∧ openedFilesMap w' = openedFilesMap w
            ∧ mountedCredentials w' = mountedCredentials w
            ∧ (∀ k, is_Some (webDAVClientMap w !! k) → is_Some (webDAVClientMap w' !! k))
            ∧ (∀ k, metadataCacheMap w !! k = Some MetadataCache.empty →
                    metadataCacheMap w' !! k = Some MetadataCache.empty)
            ∧ ∀ c, c ∈ l →
                is_Some (webDAVClientMap w' !! fileSystemIdOf c)
                ∧ metadataCacheMap w' !! fileSystemIdOf c = Some MetadataCache.empty) as Hsteps.
  { clear w l. induction l as [|c l IH]; intros w; cbn [foldl]; cbn zeta.
    - do 4 (split; [reflexivity |]). do 2 (split; [auto |]).
      intros c Hin. now apply elem_of_nil in Hin.
    - destruct (IH (step c w)) as (Hcalls & Henv & Hopened & Hstored & Hclients & Hcaches & Hall).
      split; [exact Hcalls |]. split; [exact Henv |]. split; [exact Hopened |].
      split; [exact Hstored |].
      split; [| split].
      + intros k Hk. apply Hclients. subst step; fields.
        rewrite lookup_insert. case_decide; [eauto | exact Hk].
      + intros k Hk. apply Hcaches. subst step; fields.
        rewrite lookup_insert. case_decide; [reflexivity | exact Hk].
      + intros c' [->|Hin]%elem_of_cons; [|now apply Hall].
        split.
        * apply Hclients. subst step; fields. rewrite lookup_insert_eq. eauto.
        * apply Hcaches. subst step; fields. apply lookup_insert_eq. }
  destruct (Hsteps l w) as (Hcalls & Henv & Hopened & Hstored & _ & _ & Hall).
  repeat split; try assumption; now apply Hall.
Qed.

(** With no persisted record (storage never written, or holding an empty
    object) [resumeMounts] and [#resume] return at once: no call, no mount,
    the world as it was. *)
Theorem resuming_without_records {E} `{Collaborators E} (w : World E) :
  default [] (mountedCredentials w) = [] →
  resumeMounts w = (Ok tt, w) ∧ resume w = (Ok tt, w).
Proof.
  intros Hnone. unfold resumeMounts, resume, getMountedCredentials. run.
  rewrite Hnone. split; reflexivity.
Qed.

Lemma resuming_without_records_witness :
  resumeMounts (initial Cloud.example) = (Ok tt, initial Cloud.example)
  ∧ resume (initial Cloud.example) = (Ok tt, initial Cloud.example).
Proof. apply (resuming_without_records (initial Cloud.example)). reflexivity. Defined.

(** ** Metadata and listings *)

(** A metadata request that asks for a thumbnail throws before it looks
    at the mount, the cache or the server, and the host is told FAILED. *)
Theorem thumbnail_requests_fail {E} `{Collaborators E}
    (fileSystemId entryPath : string) (rest : Obj) (w : World E) :
  let options := {| GetMetadataRequestedOptions.fileSystemId := fileSystemId;
                    GetMetadataRequestedOptions.entryPath := entryPath;
                    GetMetadataRequestedOptions.thumbnail := true;
                    GetMetadataRequestedOptions.rest := rest |} in
  onGetMetadataRequested options w = (Throw (Error "Thumbnail not supported"), w)
  ∧ listener (onGetMetadataRequested options) w = (ErrorCallback "FAILED", w).
Proof. split; reflexivity. Qed.

(** A metadata request never changes the provider's state, whatever its
    outcome: in particular the result of a [stat] is not put in the cache. *)
Theorem metadata_requests_keep_the_state {E} `{Collaborators E}
    (options : GetMetadataRequestedOptions.t) (w : World E) :
  untouched w (onGetMetadataRequested options w).2.
Proof.
  unfold onGetMetadataRequested.
  destruct (GetMetadataRequestedOptions.thumbnail options); [repeat split |].
  run. destruct (metadataCacheMap w !! _) as [metadataCache|]; cbn beta iota; [|repeat split].
  destruct (_ && _).
  - destruct (MetadataCache.metadata _); repeat split.
  - destruct (webDAVClientMap w !! _) as [client|]; cbn beta iota; [|repeat split].
    destruct (stat _ _ _) as [[st|err] e1]; repeat split.
Qed.

(** When the cache cannot answer and the server answers the [stat] with
    status 404, the host is told NOT_FOUND. *)
Theorem missing_entries_are_not_found {E} `{Collaborators E}
    (options : GetMetadataRequestedOptions.t) (w : World E)
    (metadataCache : MetadataCache.t) (client : WebDAV.Client) (e1 : E) :
  let fileSystemId := GetMetadataRequestedOptions.fileSystemId options in
  let entryPath := GetMetadataRequestedOptions.entryPath options in
  let cache := MetadataCache.get entryPath metadataCache in
  GetMetadataRequestedOptions.thumbnail options = false →
  metadataCacheMap w !! fileSystemId = Some metadataCache →
  MetadataCache.directoryExists cache && MetadataCache.fileExists cache = false →
  webDAVClientMap w !! fileSystemId = Some client →
  stat client entryPath (env w) = (Throw (Error "Request failed with status code 404"), e1) →
  listener (onGetMetadataRequested options) w
  = (ErrorCallback "NOT_FOUND", with_call (StatCall client entryPath) e1 w).
Proof.
  intros fileSystemId entryPath cache Hthumbnail Hcache Hflags Hclient Hstat.
  unfold listener.
  rewrite (onGetMetadataRequested_miss options w metadataCache client) by assumption.
  fold entryPath. rewrite Hstat. reflexivity.
Qed.

Lemma missing_entries_are_not_found_witness :
  listener (onGetMetadataRequested wants_missing) mounted_alice
  = (ErrorCallback "NOT_FOUND",
     with_call (StatCall alice_client "/missing") (env mounted_alice) mounted_alice).
Proof.
  apply (missing_entries_are_not_found wants_missing mounted_alice MetadataCache.empty
           alice_client (env mounted_alice)); vm_compute; reflexivity.
Defined.

(** A listing request that returns has made one listing call, returns one
    entry per stat record, each the projection of its translation, with the
    "more" flag false, and has put the unprojected translations in the
    mount's cache under the directory path. *)
Theorem listings_are_cached_whole {E} `{Collaborators E}
    (options : ReadDirectoryRequestedOptions.t) (w w' : World E)
    (entries : list Obj) (hasMore : bool) :
  let fileSystemId := ReadDirectoryRequestedOptions.fileSystemId options in
  let directoryPath := ReadDirectoryRequestedOptions.directoryPath options in
  onReadDirectoryRequested options w = (Ok (entries, hasMore), w') →
  hasMore = false
  ∧ ∃ client metadataCache stats,
      webDAVClientMap w !! fileSystemId = Some client
      ∧ metadataCacheMap w !! fileSystemId = Some metadataCache
      ∧ (getDirectoryContents client directoryPath (env w)).1 = Ok stats
      ∧ entries
        = (fun st => canonicalizedMetadata (fromStat st)
                       (ReadDirectoryRequestedOptions.as_object options)) <$> stats
      ∧ metadataCacheMap w'
        = <[fileSystemId := MetadataCache.put directoryPath (fromStat <$> stats) metadataCache]>
            (metadataCacheMap w)
      ∧ calls w' = (calls w ++ [GetDirectoryContents client directoryPath])%list.
Proof.
  intros fileSystemId directoryPath Hrun.
  unfold onReadDirectoryRequested in Hrun. fold fileSystemId directoryPath in Hrun.
  unwind Hrun. fields in *. unfold ret in Hrun. injection Hrun as <- <- <-.
  split; [reflexivity |].
  eexists _, _, _. fields.
  split; [eassumption |]. split; [eassumption |].
  split; [now rewrite Hanswer |]. split; [|split; reflexivity].
  now rewrite <- list_fmap_compose.
Qed.

Lemma listings_are_cached_whole_witness :
  let run := onReadDirectoryRequested lists_reports mounted_alice in
  ∃ entries hasMore,
    run.1 = Ok (entries, hasMore)
    ∧ hasMore = false
    ∧ ∃ client metadataCache stats,
        webDAVClientMap mounted_alice !! alice_fs = Some client
        ∧ metadataCacheMap mounted_alice !! alice_fs = Some metadataCache
        ∧ (getDirectoryContents client "/reports" (env mounted_alice)).1 = Ok stats
        ∧ entries
          = (fun st => canonicalizedMetadata (fromStat st)
                         (ReadDirectoryRequestedOptions.as_object lists_reports)) <$> stats
        ∧ metadataCacheMap run.2
          = <[alice_fs := MetadataCache.put "/reports" (fromStat <$> stats) metadataCache]>
              (metadataCacheMap mounted_alice)
        ∧ calls run.2
          = (calls mounted_alice ++ [GetDirectoryContents client "/reports"])%list.
Proof.
  cbn zeta.
  destruct (onReadDirectoryRequested lists_reports mounted_alice) as [[[entries hasMore]|err] w']
    eqn:Hrun; [|vm_compute in Hrun; discriminate Hrun].
  exists entries, hasMore. split; [reflexivity |].
  exact (listings_are_cached_whole lists_reports mounted_alice w' entries hasMore Hrun).
Defined.

(** A listing request that throws has not touched the provider's state:
    the mount's cache keeps what it had. *)
Theorem failed_listings_cache_nothing {E} `{Collaborators E}
    (options : ReadDirectoryRequestedOptions.t) (w w' : World E) (e : Exn) :
  onReadDirectoryRequested options w = (Throw e, w') → untouched w w'.
Proof.
  unfold onReadDirectoryRequested. run.
  destruct (webDAVClientMap w !! _) as [client|]; cbn beta iota;
    [|intros [= _ <-]; repeat split].
  destruct (getDirectoryContents _ _ _) as [[stats|err] e1]; fields;
    [|intros [= _ <-]; repeat split].
  destruct (metadataCacheMap w !! _) as [metadataCache|]; cbn beta iota;
    [discriminate | intros [= _ <-]; repeat split].
Qed.

Lemma failed_listings_cache_nothing_witness :
  untouched mounted_alice (onReadDirectoryRequested lists_missing mounted_alice).2.
Proof.
  apply (failed_listings_cache_nothing lists_missing mounted_alice _ (Cloud.status "404")).
  vm_compute. reflexivity.
Defined.

(** ** File handles *)

(** Opening a file in a mode other than WRITE calls nothing and registers
    the handle under the request id, with the uuid just drawn; closing it
    calls nothing either and removes the handle, so that an open and a close
    of a fresh request id leave the handle table as it was. *)
Theorem read_handles_open_and_close_locally {E} `{Collaborators E}
    (fileSystemId filePath mode : string) (requestId : N) (w : World E) :
  mode ≠ "WRITE" →
  openedFilesMap w !! String_ requestId = None →
  let uuid := (uuidv1 (env w)).1 in
  let e := (uuidv1 (env w)).2 in
  onOpenFileRequested requestId filePath mode w
  = (Ok tt, with_openedFilesMap <[String_ requestId := Handle filePath mode uuid]>
              (with_env e w))
  ∧ bind (onOpenFileRequested requestId filePath mode)
         (fun _ => onCloseFileRequested fileSystemId requestId) w
    = (Ok tt, with_env e w).
Proof.
  intros Hmode Hfresh. apply String.eqb_neq in Hmode.
  unfold onOpenFileRequested, onCloseFileRequested, new_uuid. run.
  destruct (uuidv1 (env w)) as [uuid e]. rewrite Hmode. fields.
  split; [reflexivity |].
  rewrite lookup_insert_eq. cbn beta iota. rewrite Hmode. fields.
  unfold with_openedFilesMap, with_env; fields.
  now rewrite delete_insert_id.
Qed.

Lemma read_handles_open_and_close_locally_witness :
  onOpenFileRequested 7 "/a.txt" "READ" mounted_alice
  = (Ok tt, with_openedFilesMap
              <[String_ 7 := Handle "/a.txt" "READ" (uuidv1 (env mounted_alice)).1]>
              (with_env (uuidv1 (env mounted_alice)).2 mounted_alice))
  ∧ bind (onOpenFileRequested 7 "/a.txt" "READ")
         (fun _ => onCloseFileRequested alice_fs 7) mounted_alice
    = (Ok tt, with_env (uuidv1 (env mounted_alice)).2 mounted_alice).
Proof.
  apply (read_handles_open_and_close_locally alice_fs "/a.txt" "READ" 7 mounted_alice).
  - discriminate.
  - vm_compute. reflexivity.
Defined.

(** Closing or writing under a request id that is not open throws a
    TypeError before anything is called, and changes nothing. *)
Theorem unknown_handles_throw {E} `{Collaborators E}
    (fileSystemId : string) (openRequestId offset : N) (data : list Byte.byte) (w : World E) :
  openedFilesMap w !! String_ openRequestId = None →
  onCloseFileRequested fileSystemId openRequestId w
  = (Throw (TypeError "Cannot read properties of undefined"), w)
  ∧ onWriteFileRequested fileSystemId openRequestId offset data w
    = (Throw (TypeError "Cannot read properties of undefined"), w).
Proof.
  intros Hnone. unfold onCloseFileRequested, onWriteFileRequested. run.
  rewrite Hnone. split; reflexivity.
Qed.

Lemma unknown_handles_throw_witness :
  onCloseFileRequested alice_fs 9 mounted_alice
  = (Throw (TypeError "Cannot read properties of undefined"), mounted_alice)
  ∧ onWriteFileRequested alice_fs 9 0 [x00]%byte mounted_alice
    = (Throw (TypeError "Cannot read properties of undefined"), mounted_alice).
Proof.
  apply (unknown_handles_throw alice_fs 9 0 [x00]%byte mounted_alice).
  vm_compute. reflexivity.
Defined.

(** A write on an open handle, whatever the mode it was opened in, makes
    exactly one call, the upload of the data to
    [/<uuid>/<offset>-<end>], returns what that call answers, and leaves
    the provider's state as it is.  The range is one whose end does not
    pass 2^53, where the source's sum of two doubles is the exact sum. *)
Theorem writes_upload_one_chunk {E} `{Collaborators E}
    (fileSystemId filePath mode uuid : string) (openRequestId offset : N)
    (data : list Byte.byte) (client : WebDAV.Client) (w : World E) :
  (offset + byteLength data ≤ 2 ^ 53)%N →
  openedFilesMap w !! String_ openRequestId = Some (Handle filePath mode uuid) →
  webDAVClientMap w !! fileSystemId = Some client →
  let path := "/" ++ uuid ++ "/" ++ paddedIndex offset ++ "-"
              ++ paddedIndex (offset + byteLength data) in
  let answer := putFileContents client (VString path) (VBuffer data) (env w) in
  onWriteFileRequested fileSystemId openRequestId offset data w
  = (answer.1, with_call (PutFileContents client (VString path) (VBuffer data)) answer.2 w).
Proof.
  intros _ Hhandle Hclient. unfold onWriteFileRequested. run.
  rewrite Hhandle, Hclient. cbn [uuidOf]. unfold uploadPath, chunkName, template.
  cbn [from_option id]. cbn zeta.
  destruct (putFileContents _ _ _ _) as [r e1]. reflexivity.
Qed.

Lemma writes_upload_one_chunk_witness :
  let path := "/uuid-0/000000000000000-000000000000002" in
  let answer := putFileContents alice_client (VString path) (VBuffer [x00; x01]%byte)
                  (env reading_alice) in
  onWriteFileRequested alice_fs 7 0 [x00; x01]%byte reading_alice
  = (answer.1,
     with_call (PutFileContents alice_client (VString path) (VBuffer [x00; x01]%byte))
       answer.2 reading_alice).
Proof.
  apply (writes_upload_one_chunk alice_fs "/a.txt" "READ" "uuid-0" 7 0 [x00; x01]%byte
           alice_client reading_alice).
  - apply N.leb_le. vm_compute. reflexivity.
  - vm_compute. reflexivity.
  - vm_compute. reflexivity.
Defined.

(** ** Mutating requests *)

(** A createDirectory request always throws on the unbound [recursive] of
    its log line: it calls nothing, changes nothing, and the host is told
    FAILED. *)
Theorem createDirectory_always_throws {E} `{Collaborators E}
    (fileSystemId directoryPath : string) (w : World E) :
  onCreateDirectoryRequested fileSystemId directoryPath w
  = (Throw (ReferenceError "recursive"), w)
  ∧ listener (onCreateDirectoryRequested fileSystemId directoryPath) w
    = (ErrorCallback "FAILED", w).
Proof. split; reflexivity. Qed.

(** A deleteEntry request on a mount with a client and a cache always
    returns: the delete call goes out, its answer is not looked at, and the
    path is evicted from the cache even when the server refused. *)
Theorem deleteEntry_ignores_the_answer {E} `{Collaborators E}
    (fileSystemId entryPath : string) (client : WebDAV.Client)
    (metadataCache : MetadataCache.t) (w : World E) :
  webDAVClientMap w !! fileSystemId = Some client →
  metadataCacheMap w !! fileSystemId = Some metadataCache →
  onDeleteEntryRequested fileSystemId entryPath w
  = (Ok tt,
     with_metadataCacheMap <[fileSystemId := MetadataCache.remove entryPath metadataCache]>
       (with_call (DeleteFile client entryPath) (deleteFile client entryPath (env w)).2 w)).
Proof.
  intros Hclient Hcache. unfold onDeleteEntryRequested. run.
  rewrite Hclient. cbn beta iota.
  destruct (deleteFile _ _ _) as [r e1]. fields. now rewrite Hcache.
Qed.

Lemma deleteEntry_ignores_the_answer_witness :
  (deleteFile alice_client "/missing" (env mounted_alice)).1 = Throw (Cloud.status "404")
  ∧ onDeleteEntryRequested alice_fs "/missing" mounted_alice
    = (Ok tt,
       with_metadataCacheMap
         <[alice_fs := MetadataCache.remove "/missing" MetadataCache.empty]>
         (with_call (DeleteFile alice_client "/missing")
            (deleteFile alice_client "/missing" (env mounted_alice)).2 mounted_alice)).
Proof.
  split; [vm_compute; reflexivity |].
  apply (deleteEntry_ignores_the_answer alice_fs "/missing" alice_client MetadataCache.empty
           mounted_alice); vm_compute; reflexivity.
Defined.

(** A deleteEntry, createFile, copyEntry or moveEntry request that throws
    has not touched the provider's state: nothing is evicted from the cache
    when the awaited call fails or the mount is unknown. *)
Theorem failed_mutations_evict_nothing {E} `{Collaborators E}
    (fileSystemId : string) (m : Mutation) (w w' : World E) (e : Exn) :
  requested fileSystemId m w = (Throw e, w') → untouched w w'.
Proof.
  destruct m as [entryPath|filePath|sourcePath targetPath|sourcePath targetPath];
    unfold requested, onDeleteEntryRequested, onCreateFileRequested,
      onCopyEntryRequested, onMoveEntryRequested; run;
    (destruct (webDAVClientMap w !! fileSystemId) as [client|]; cbn beta iota;
       [|intros [= _ <-]; repeat split]);
    match goal with
    | |- context [deleteFile ?c ?p ?x] => destruct (deleteFile c p x) as [r e1]
    | |- context [putFileContents ?c ?p ?d ?x] =>
        destruct (putFileContents c p d x) as [[[]|err] e1]
    | |- context [copyFile ?c ?s ?t ?x] => destruct (copyFile c s t x) as [[[]|err] e1]
    | |- context [moveFile ?c ?s ?t ?x] => destruct (moveFile c s t x) as [[[]|err] e1]
    end; fields; try (intros [= _ <-]; repeat split);
    (destruct (metadataCacheMap w !! fileSystemId) as [metadataCache|]; cbn beta iota;
       [discriminate | intros [= _ <-]; repeat split]).
Qed.

Lemma failed_mutations_evict_nothing_witness :
  untouched warm_alice (requested alice_fs (CreateFile "/reports") warm_alice).2.
Proof.
  apply (failed_mutations_evict_nothing alice_fs (CreateFile "/reports") warm_alice _
           (Cloud.status "405")).
  vm_compute. reflexivity.
Defined.

(** When the download of a truncate fails, the failure is thrown, no
    upload is attempted and the provider's state is as before. *)
Theorem failed_download_stops_truncate {E} `{Collaborators E}
    (fileSystemId filePath : string) (length : N) (client : WebDAV.Client)
    (w : World E) (e : Exn) (e1 : E) :
  webDAVClientMap w !! fileSystemId = Some client →
  getFileContents client filePath (env w) = (Throw e, e1) →
  onTruncateRequested fileSystemId filePath length w
  = (Throw e, with_call (GetFileContents client filePath) e1 w).
Proof.
  intros Hclient Hget. unfold onTruncateRequested. run. now rewrite Hclient, Hget.
Qed.

Lemma failed_download_stops_truncate_witness :
  onTruncateRequested alice_fs "/missing" 2 mounted_alice
  = (Throw (Cloud.status "404"),
     with_call (GetFileContents alice_client "/missing") (env mounted_alice) mounted_alice).
Proof.
  apply (failed_download_stops_truncate alice_fs "/missing" 2 alice_client mounted_alice);
    vm_compute; reflexivity.
Defined.

Lemma projections_compose_witness :
  canonicalizedMetadata {[ "name" := VString "q1.pdf" ]} {[ "name" := VBool true ]}
  = {[ "name" := VString "q1.pdf" ]}.
Proof.
  apply (projections_compose {[ "name" := VString "q1.pdf" ]} {[ "name" := VBool true ]} ∅).
  intros key [v Hv]. apply lookup_singleton_Some in Hv as [<- _]. reflexivity.
Defined.

(** * Runs of the provider *)

(** ** What the steps of a handler preserve *)

Section Preservation.
Context {E : Type} `{Collaborators E}.
Variable P : World E → Prop.
Hypothesis P_internal : internal P.

Lemma preserves_ret {A} (a : A) : preserves P (ret a).
Proof. intros w Hw. exact Hw. Qed.

Lemma preserves_throw {A} (e : Exn) : preserves P (throw (A := A) e).
Proof. intros w Hw. exact Hw. Qed.

Lemma preserves_unbound {A} (identifier : string) : preserves P (unbound (A := A) identifier).
Proof. intros w Hw. exact Hw. Qed.

Lemma preserves_gets {A} (f : World E → A) : preserves P (gets f).
Proof. intros w Hw. exact Hw. Qed.

Lemma preserves_defined {A} (receiver : option A) : preserves P (defined receiver).
Proof. intros w Hw. destruct receiver; exact Hw. Qed.

Lemma preserves_modify (f : World E → World E) :
  (∀ w, P w → P (f w)) → preserves P (modify f).
Proof. intros Hf w Hw. exact (Hf w Hw). Qed.

Lemma preserves_await {A} (c : Call) (answer : E → Result A * E) :
  preserves P (await c answer).
Proof.
  intros w Hw. unfold await. destruct (answer (env w)) as [r e]. now apply P_internal.
Qed.

Lemma preserves_unawaited {A} (c : Call) (answer : E → Result A * E) :
  preserves P (unawaited c answer).
Proof.
  intros w Hw. unfold unawaited. destruct (answer (env w)) as [r e]. now apply P_internal.
Qed.

Lemma preserves_new_uuid : preserves P new_uuid.
Proof.
  intros w Hw. unfold new_uuid. destruct (uuidv1 (env w)) as [uuid e]. now apply P_internal.
Qed.

Lemma preserves_isMounted (url username : string) : preserves P (isMounted url username).
Proof. intros w Hw. unfold isMounted. now apply P_internal. Qed.

Lemma preserves_bind {A B} (m : M E A) (k : A → M E B) :
  preserves P m → (∀ a, preserves P (k a)) → preserves P (bind m k).
Proof.
  intros Hm Hk w Hw. unfold bind. specialize (Hm w Hw).
  destruct (m w) as [[a|e] w1]; [now apply Hk | exact Hm].
Qed.

Lemma preserves_for_of {A} (xs : list A) (body : A → M E unit) :
  (∀ x, preserves P (body x)) → preserves P (for_of xs body).
Proof.
  intros Hbody. induction xs as [|x xs IH]; cbn [for_of].
  - apply preserves_ret.
  - apply preserves_bind; [apply Hbody | intros _; exact IH].
Qed.

End Preservation.

(** The steps of a handler, one after the other; [side] settles what an
    assignment to one of the maps does to the property. *)
Ltac preserve HP side :=
  repeat first
    [ apply preserves_ret | apply preserves_throw | apply preserves_unbound
    | apply preserves_gets | apply preserves_defined
    | apply (preserves_await _ HP) | apply (preserves_unawaited _ HP)
    | apply (preserves_new_uuid _ HP) | apply (preserves_isMounted _ HP)
    | apply preserves_bind; [| intros ?]
    | apply preserves_for_of; intros ?
    | apply preserves_modify; side
    | match goal with
      | |- preserves _ (if ?b then _ else _) => destruct b
      | |- preserves _ (match ?x with _ => _ end) => destruct x
      end ].

(** ** No handle of mode WRITE *)

Lemma noWriteHandle_internal {E} : internal (noWriteHandle (E := E)).
Proof. split; intros; assumption. Qed.

Lemma noWriteHandle_delete {E} (key : string) (w : World E) :
  noWriteHandle w → noWriteHandle (with_openedFilesMap (delete key) w).
Proof.
  intros Hw k filePath mode uuid Hk. fields in *.
  apply lookup_delete_Some in Hk as [_ Hk]. exact (Hw _ _ _ _ Hk).
Qed.

Lemma noWriteHandle_insert {E} (key : string) (opened : OpenedFile) (w : World E) :
  (∀ filePath mode uuid, opened = Handle filePath mode uuid → mode ≠ "WRITE") →
  noWriteHandle w → noWriteHandle (with_openedFilesMap <[key := opened]> w).
Proof.
  intros Hopened Hw k filePath mode uuid Hk. fields in *.
  apply lookup_insert_Some in Hk as [[_ Hk]|[_ Hk]]; [exact (Hopened _ _ _ Hk) |].
  exact (Hw _ _ _ _ Hk).
Qed.

Ltac noWriteHandle_side :=
  first
    [ intros ? ?; assumption
    | intros ?; apply noWriteHandle_delete
    | intros ?; apply noWriteHandle_insert; discriminate ].

Lemma onOpenFileRequested_noWriteHandle {E} `{Collaborators E}
    (requestId : N) (filePath mode : string) :
  preserves noWriteHandle (onOpenFileRequested requestId filePath mode).
Proof.
  intros w Hw. unfold onOpenFileRequested, new_uuid. run.
  destruct (uuidv1 (env w)) as [uuid e].
  destruct (String.eqb mode "WRITE") eqn:Hmode; fields.
  - exact Hw.
  - apply noWriteHandle_insert; [| exact Hw].
    intros ? ? ? [= _ <- _] ->. discriminate.
Qed.

Lemma served_noWriteHandle {E} `{Collaborators E} (r : Request) (w : World E) :
  noWriteHandle w → noWriteHandle (served r w).
Proof.
  revert w. change (∀ w, noWriteHandle w → noWriteHandle (served r w)).
  destruct r as [url username|[name url username password]| |fileSystemId|options|options
                |requestId filePath mode|fileSystemId openRequestId|fileSystemId directoryPath
                |fileSystemId m|fileSystemId filePath length
                |fileSystemId openRequestId offset data|fileSystemId operationRequestId];
    cbn [served];
    try (destruct m; cbn [requested]);
    match goal with |- ∀ w, noWriteHandle w → noWriteHandle (?m w).2 =>
      change (preserves noWriteHandle m) end;
    try apply onOpenFileRequested_noWriteHandle;
    unfold mount, resumeMounts, resumeMount, onUnmountRequested, onReadDirectoryRequested,
      onGetMetadataRequested, onCloseFileRequested, onCreateDirectoryRequested,
      onDeleteEntryRequested, onCreateFileRequested, onCopyEntryRequested,
      onMoveEntryRequested, onTruncateRequested, onWriteFileRequested, onAbortRequested,
      storeMountedCredential, removeMountedCredential, getMountedCredentials;
    cbv zeta;
    preserve (noWriteHandle_internal (E := E)) noWriteHandle_side.
Qed.

(** The example state with a handle open for reading is a state of a run:
    construction, [mount(alice)], the open request. *)
Lemma reading_alice_reachable : reachable reading_alice.
Proof.
  exact (reachable_served (OpenFileRequested 7 "/a.txt" "READ") _
           (reachable_served (Mount alice) _
              (reachable_constructed Cloud.example None))).
Qed.

(** No run registers a handle of mode WRITE: in every state that the
    constructor and requests lead to, whatever the outside world answers, no
    handle in the table has mode WRITE.  So a close request never calls the
    server, and its move of the assembled file is never asked for. *)
Theorem no_run_opens_for_write {E} `{Collaborators E} (w : World E) :
  reachable w →
  noWriteHandle w
  ∧ ∀ (fileSystemId : string) (openRequestId : N),
      calls (onCloseFileRequested fileSystemId openRequestId w).2 = calls w
      ∧ env (onCloseFileRequested fileSystemId openRequestId w).2 = env w.
Proof.
  intros Hreachable.
  assert (noWriteHandle w) as Hw.
  { induction Hreachable as [e storage|r w _ IH].
    - assert (preserves noWriteHandle (resume (E := E))) as Hresume.
      { unfold resume, getMountedCredentials.
        preserve (noWriteHandle_internal (E := E)) noWriteHandle_side. }
      apply Hresume. intros key filePath mode uuid Hkey.
      unfold initial in Hkey. fields in *. now rewrite lookup_empty in Hkey.
    - now apply served_noWriteHandle. }
  split; [exact Hw |]. intros fileSystemId openRequestId.
  unfold onCloseFileRequested. run.
  destruct (openedFilesMap w !! String_ openRequestId) as [[filePath mode uuid|]|] eqn:Hopened;
    fields; [| split; reflexivity | split; reflexivity].
  destruct (String.eqb mode "WRITE") eqn:Hmode; fields; [| split; reflexivity].
  apply String.eqb_eq in Hmode. now destruct (Hw _ _ _ _ Hopened).
Qed.

Lemma no_run_opens_for_write_witness :
  openedFilesMap reading_alice !! String_ 7 = Some (Handle "/a.txt" "READ" "uuid-0")
  ∧ noWriteHandle reading_alice
  ∧ ∀ (fileSystemId : string) (openRequestId : N),
      calls (onCloseFileRequested fileSystemId openRequestId reading_alice).2
      = calls reading_alice
      ∧ env (onCloseFileRequested fileSystemId openRequestId reading_alice).2
        = env reading_alice.
Proof.
  split; [vm_compute; reflexivity |].
  apply (no_run_opens_for_write reading_alice). exact reading_alice_reachable.
Defined.
